(** * Dummy-file generator (app.py): model and verified properties

    The program repeats a fixed message until a target size is reached,
    truncates the text to that size and writes it to a file; [main] does so
    for the sizes 1..15 MB inside the directory [dummy_files].

    Modelling choices, all taken from the way app.py is written:
    - a Python [int] is a [Z]; a Python [str] is a list of code points;
      [bytes] is a list of octets (kept as [Z] in 0..255);
    - [a / b] on ints is the correctly rounded binary64 quotient, computed
      with the IEEE 754 specification of the standard library
      ([SpecFloat]); it raises [OverflowError] when the rounded quotient is
      not finite;
    - the file system is a finite map from paths to nodes, standard output
      is the text printed so far, and a statement is a function from the
      world to the new world and either a value or the exception raised;
    - the platform is POSIX with a UTF-8 locale: text written to a file is
      encoded as UTF-8 and the line feed is written unchanged; the path
      separator is the slash.  Paths are used as spelled (no links and no
      dot components).  Memory is not bounded. *)

From Stdlib Require Import ZArith Lia SpecFloat Ascii String.
From Stdlib Require Import DecimalString DecimalPos DecimalZ.
From stdpp Require Import base gmap strings list.

#[local] Open Scope Z_scope.

(** ** Exceptions and results *)

Inductive exn :=
  | OverflowError
  | ZeroDivisionError
  | ValueError
  | UnicodeEncodeError
  | FileExistsError
  | FileNotFoundError
  | NotADirectoryError
  | IsADirectoryError.

Inductive result (A : Type) :=
  | Ok (a : A)
  | Raise (e : exn).
Arguments Ok {A} a.
Arguments Raise {A} e.

Definition result_bind {A B} (r : result A) (k : A -> result B) : result B :=
  match r with
  | Ok a => k a
  | Raise e => Raise e
  end.

(** ** Python floats: true division of ints and [math.ceil] *)

Module Float.

Definition prec : Z := 53.
Definition emax : Z := 1024.

(** [a / b] for two ints.  CPython returns the quotient of the two exact
    integers rounded once, to nearest with ties to even; a zero divisor
    raises [ZeroDivisionError] and a quotient too large for a float raises
    [OverflowError]. *)
Definition int_truediv (a b : Z) : result spec_float :=
  if b =? 0 then Raise ZeroDivisionError
  else
    let sign := xorb (a <? 0) (b <? 0) in
    let '(q, e, l) := SFdiv_core_binary prec emax (Z.abs a) 0 (Z.abs b) 0 in
    match binary_round_aux prec emax sign q e l with
    | S754_infinity _ => Raise OverflowError
    | x => Ok x
    end.

(** The integer [ceil (m * 2^e)]. *)
Definition ceil_scaled (m e : Z) : Z :=
  if 0 <=? e then m * 2 ^ e else - ((- m) / 2 ^ (- e)).

(** [math.ceil x]: the smallest int not below [x]. *)
Definition math_ceil (x : spec_float) : result Z :=
  match x with
  | S754_zero _ => Ok 0
  | S754_finite s m e => Ok (ceil_scaled (cond_Zopp s (Zpos m)) e)
  | S754_infinity _ => Raise OverflowError
  | S754_nan => Raise ValueError
  end.

(** Position of the exact quotient [N / D] with respect to a truncated
    mantissa and its round and sticky bits: the mantissa is the integer
    part, the round bit says whether the fraction reaches one half and the
    sticky bit whether anything is left besides that half. *)
Definition located (N D : Z) (mrs : shr_record) : Prop :=
  0 < D /\ shr_m mrs = N / D
  /\ shr_r mrs = (D <=? 2 * (N mod D))
  /\ shr_s mrs = negb (N mod D =? 0) && negb (2 * (N mod D) =? D).

End Float.

(** Exact ceiling of the quotient of two integers, the value the
    specification asks for. *)
Definition ceil_div (a b : Z) : Z := - ((- a) / b).

(** ** Python sequences: [str] as code points, [bytes] as octets *)

Abbreviation str := (list Z) (only parsing).
Abbreviation bytes := (list Z) (only parsing).

(** A literal of the source, character by character. *)
Fixpoint str_lit (s : string) : str :=
  match s with
  | EmptyString => []
  | String a s' => Z.of_N (N_of_ascii a) :: str_lit s'
  end.

Definition len {A} (s : list A) : Z := Z.of_nat (length s).

(** [s * k]: [k] copies of [s], none when [k] is not positive. *)
Definition seq_mul {A} (s : list A) (k : Z) : list A :=
  concat (replicate (Z.to_nat k) s).

(** [s[:n]]: a negative [n] counts from the end. *)
Definition slice_to {A} (s : list A) (n : Z) : list A :=
  if 0 <=? n then take (Z.to_nat n) s
  else take (Z.to_nat (len s + n)) s.

(** UTF-8 encoding of one code point; surrogates cannot be encoded. *)
Definition utf8_encode_char (c : Z) : result bytes :=
  if c <? 0 then Raise UnicodeEncodeError
  else if c <? 0x80 then Ok [c]
  else if c <? 0x800 then
    Ok [Z.lor 0xC0 (Z.shiftr c 6); Z.lor 0x80 (Z.land c 0x3F)]
  else if (0xD800 <=? c) && (c <=? 0xDFFF) then Raise UnicodeEncodeError
  else if c <? 0x10000 then
    Ok [Z.lor 0xE0 (Z.shiftr c 12);
        Z.lor 0x80 (Z.land (Z.shiftr c 6) 0x3F);
        Z.lor 0x80 (Z.land c 0x3F)]
  else if c <=? 0x10FFFF then
    Ok [Z.lor 0xF0 (Z.shiftr c 18);
        Z.lor 0x80 (Z.land (Z.shiftr c 12) 0x3F);
        Z.lor 0x80 (Z.land (Z.shiftr c 6) 0x3F);
        Z.lor 0x80 (Z.land c 0x3F)]
  else Raise UnicodeEncodeError.

(** [s.encode('utf-8')] *)
Fixpoint encode_utf8 (s : str) : result bytes :=
  match s with
  | [] => Ok []
  | c :: s' =>
      result_bind (utf8_encode_char c) (fun b =>
      result_bind (encode_utf8 s') (fun bs => Ok (b ++ bs)))
  end.

(** [str(z)] for an int. *)
Definition int_str (z : Z) : str :=
  str_lit (NilZero.string_of_int (Z.to_int z)).

(** [range(a, b)] *)
Definition py_range (a b : Z) : list Z :=
  map (fun i => a + Z.of_nat i) (seq 0 (Z.to_nat (b - a))).

(** ** Paths (posixpath) *)

Definition slash : Z := 47.

Definition ends_with_slash (p : str) : bool :=
  match last p with
  | Some c => c =? slash
  | None => false
  end.

(** [os.path.join(a, b)] *)
Definition os_path_join (a b : str) : str :=
  match b with
  | c :: _ => if c =? slash then b
              else if ends_with_slash a || bool_decide (a = []) then a ++ b
              else a ++ slash :: b
  | [] => if ends_with_slash a || bool_decide (a = []) then a
          else a ++ [slash]
  end.

Fixpoint drop_slashes (r : str) : str :=
  match r with
  | c :: r' => if c =? slash then drop_slashes r' else r
  | [] => []
  end.

Fixpoint drop_to_slash (r : str) : str :=
  match r with
  | c :: r' => if c =? slash then r else drop_to_slash r'
  | [] => []
  end.

(** [os.path.dirname(p)]: what precedes the last slash, without trailing
    slashes unless it consists of slashes only. *)
Definition os_path_dirname (p : str) : str :=
  let head := drop_to_slash (reverse p) in
  match drop_slashes head with
  | [] => reverse head
  | h => reverse h
  end.

(** The directories above [p], outermost first. *)
Fixpoint ancestors_from (seen : str) (p : str) : list str :=
  match p with
  | [] => []
  | c :: p' =>
      (if (c =? slash) && negb (bool_decide (drop_slashes seen = []))
       then [reverse (drop_slashes seen)] else [])
      ++ ancestors_from (c :: seen) p'
  end.

Definition ancestors (p : str) : list str :=
  remove_dups (ancestors_from [] p).

(** ** The world: file system and standard output *)

Inductive node :=
  | Dir
  | File (data : bytes).

Record world := World {
  files : gmap (list Z) node;
  stdout : str
}.

(** A statement: it changes the world and returns or raises. *)
Definition py (A : Type) : Type := world -> world * result A.

Definition py_ret {A} (a : A) : py A := fun w => (w, Ok a).

Definition py_raise {A} (e : exn) : py A := fun w => (w, Raise e).

Definition py_bind {A B} (c : py A) (k : A -> py B) : py B :=
  fun w =>
    match c w with
    | (w', Ok a) => k a w'
    | (w', Raise e) => (w', Raise e)
    end.

(** A pure computation that may raise. *)
Definition py_lift {A} (r : result A) : py A := fun w => (w, r).

Declare Scope py_scope.
Delimit Scope py_scope with py.
Notation "x <- c ;; k" := (py_bind c (fun x => k))
  (at level 100, c at next level, right associativity) : py_scope.
Notation "c ;; k" := (py_bind c (fun _ => k))
  (at level 100, right associativity) : py_scope.

(** [for x in l: body x] *)
Fixpoint for_each {A} (l : list A) (body : A -> py unit) : py unit :=
  match l with
  | [] => py_ret tt
  | x :: l' => (body x ;; for_each l' body)%py
  end.

(** A directory exists at [d]; the working directory (the empty path) and
    the root always do. *)
Definition is_dir (w : world) (d : str) : bool :=
  match drop_slashes d with
  | [] => true
  | _ => match files w !! d with
         | Some Dir => true
         | _ => false
         end
  end.

(** Why a new entry cannot be made inside [d], if so. *)
Definition parent_error (w : world) (d : str) : option exn :=
  if is_dir w d then None
  else match files w !! d with
       | Some _ => Some NotADirectoryError
       | None => Some FileNotFoundError
       end.

(** Something, a directory or a file, exists at [p]. *)
Definition path_exists (w : world) (p : str) : bool :=
  is_dir w p || match files w !! p with Some _ => true | None => false end.

(** [os.mkdir(p)] *)
Definition os_mkdir (p : str) : py unit := fun w =>
  match p with
  | [] => (w, Raise FileNotFoundError)
  | _ =>
      if path_exists w p then (w, Raise FileExistsError)
      else match parent_error w (os_path_dirname p) with
           | Some e => (w, Raise e)
           | None => (World (<[p := Dir]> (files w)) (stdout w), Ok tt)
           end
  end.

(** [os.makedirs(p, exist_ok=...)]: makes the missing directories above
    [p], then [p] itself; an error of the last step is dropped when
    [exist_ok] is set and [p] is a directory. *)
Definition os_makedirs (p : str) (exist_ok : bool) : py unit :=
  (for_each (ancestors p) (fun d w =>
     if path_exists w d then (w, Ok tt) else os_mkdir d w) ;;
   fun w =>
     match os_mkdir p w with
     | (w', Raise e) =>
         if exist_ok && is_dir w' p then (w', Ok tt) else (w', Raise e)
     | r => r
     end)%py.

(** [open(p, 'w')]: creates the file or empties it.  The handle is the
    path; closing changes nothing in this model. *)
Definition open_w (p : str) : py str := fun w =>
  match p with
  | [] => (w, Raise FileNotFoundError)
  | _ =>
      if is_dir w p then (w, Raise IsADirectoryError)
      else match parent_error w (os_path_dirname p) with
           | Some e => (w, Raise e)
           | None => (World (<[p := File []]> (files w)) (stdout w), Ok p)
           end
  end.

(** [f.write(s)] on a text file: the text is encoded and appended. *)
Definition file_write (f : str) (s : str) : py Z := fun w =>
  match encode_utf8 s with
  | Raise e => (w, Raise e)
  | Ok bs =>
      match files w !! f with
      | Some (File data) =>
          (World (<[f := File (data ++ bs)]> (files w)) (stdout w), Ok (len s))
      | _ => (w, Raise ValueError)
      end
  end.

(** [with open(p, 'w') as f: body f] *)
Definition with_open_w {A} (p : str) (body : str -> py A) : py A :=
  (f <- open_w p ;; body f)%py.

(** [print(s)] *)
Definition print (s : str) : py unit := fun w =>
  (World (files w) (stdout w ++ s ++ [10]), Ok tt).

(** ** The program (app.py) *)

Definition message : str :=
  str_lit "This file is generated through python by Mujeeb and Hayyan for Research Report"
    ++ [10].

(** The line printed at the end of [create_dummy_file]. *)
Definition created_line (filename : str) (size_in_mb : Z) : str :=
  str_lit "Created file '" ++ filename ++ str_lit "' of size "
    ++ int_str size_in_mb ++ str_lit "MB with repeated message".

Definition create_dummy_file (filename : str) (size_in_mb : Z) : py unit :=
  (encoded <- py_lift (encode_utf8 message) ;;
   let message_bytes := len encoded in
   let size_in_bytes := size_in_mb * 1024 * 1024 in
   quotient <- py_lift (Float.int_truediv size_in_bytes message_bytes) ;;
   repetitions <- py_lift (Float.math_ceil quotient) ;;
   with_open_w filename (fun f =>
     let content := seq_mul message repetitions in
     file_write f (slice_to content size_in_bytes)) ;;
   print (created_line filename size_in_mb))%py.

(** The number of copies of the message that [create_dummy_file] computes
    before it opens the file (lines 7 to 10 of app.py), on its own. *)
Definition repetitions (size_in_mb : Z) : result Z :=
  result_bind (encode_utf8 message) (fun encoded =>
  let message_bytes := len encoded in
  let size_in_bytes := size_in_mb * 1024 * 1024 in
  result_bind (Float.int_truediv size_in_bytes message_bytes) Float.math_ceil).

Definition output_dir : str := str_lit "dummy_files".

Definition dummy_name (size : Z) : str :=
  os_path_join output_dir (str_lit "dummy_" ++ int_str size ++ str_lit "MB.txt").

Definition main : py unit :=
  (os_makedirs output_dir true ;;
   for_each (py_range 1 16) (fun size =>
     let filename := dummy_name size in
     create_dummy_file filename size))%py.

(** ** Notions used to state the properties *)

Definition is_ascii (c : Z) : Prop := 0 <= c < 128.

(** [open(p, 'w')] is possible in [w]: [p] is not a directory and the
    directory that is to contain it exists. *)
Definition can_open_w (w : world) (p : str) : bool :=
  negb (is_dir w p)
  && match p with [] => false | _ => true end
  && match parent_error w (os_path_dirname p) with None => true | _ => false end.

(** The world lets [main] run: nothing but a directory is in the way at
    [dummy_files], and no directory is in the way of a file. *)
Definition main_ready (w : world) : bool :=
  match files w !! output_dir with Some (File _) => false | _ => true end
  && forallb (fun size => negb (is_dir w (dummy_name size))) (py_range 1 16).

(** The content the specification asks for: the message repeated
    [ceil (target_bytes / message_byte_len)] times, cut to [target_bytes]. *)
Definition spec_content (size : Z) : bytes :=
  take (Z.to_nat (size * 1048576))
    (seq_mul message (ceil_div (size * 1048576) (len message))).

(** The files of [sizes] written one after the other into [m]. *)
Definition write_all (sizes : list Z) (m : gmap (list Z) node) : gmap (list Z) node :=
  foldl (fun m size => <[dummy_name size := File (spec_content size)]> m) m sizes.

(** The lines printed for [sizes]. *)
Definition output_lines (sizes : list Z) : str :=
  concat (map (fun size => created_line (dummy_name size) size ++ [10]) sizes).

(** Two small worlds to run the program in: nothing at all, and only the
    output directory. *)
Definition empty_world : world := World ∅ [].

Definition world_with_dir : world := World {[ output_dir := Dir ]} [].

Definition path_1mb : str := str_lit "dummy_files/dummy_1MB.txt".


(** * Facts about the float quotient *)

Module FloatFacts.
Import Float.

Ltac bool_cases :=
  repeat match goal with
  | |- context [Z.eqb ?a ?b] => destruct (Z.eqb_spec a b)
  | |- context [Z.leb ?a ?b] => destruct (Z.leb_spec a b)
  end; simpl; try reflexivity; try lia.

Lemma shr_1_m mrs : 0 <= shr_m mrs -> shr_m (shr_1 mrs) = shr_m mrs / 2.
Proof.
  destruct mrs as [m r s]; simpl. intros Hm.
  destruct m as [|[p|p|]|p]; simpl; try lia; try reflexivity.
  - rewrite Pos2Z.inj_xI. apply (Z.div_unique_pos _ _ _ 1); lia.
  - rewrite Pos2Z.inj_xO. apply (Z.div_unique_pos _ _ _ 0); lia.
Qed.

Lemma shr_1_r mrs : 0 <= shr_m mrs -> shr_r (shr_1 mrs) = Z.odd (shr_m mrs).
Proof.
  destruct mrs as [m r s]; simpl. intros Hm.
  destruct m as [|[p|p|]|p]; simpl; try lia; reflexivity.
Qed.

Lemma shr_1_s mrs : shr_s (shr_1 mrs) = shr_r mrs || shr_s mrs.
Proof.
  destruct mrs as [m r s]; simpl.
  destruct m as [|[p|p|]|[p|p|]]; reflexivity.
Qed.

Lemma located_shr_1 N D mrs :
  0 <= N -> located N D mrs -> located N (2 * D) (shr_1 mrs).
Proof.
  intros HN (HD & Hm & Hr & Hs).
  assert (Hm0 : 0 <= shr_m mrs) by (rewrite Hm; apply Z.div_pos; lia).
  pose proof (Z.mod_pos_bound N D HD) as Hrem.
  pose proof (Z.div_mod N D ltac:(lia)) as Hdm.
  assert (Hmod : N mod (2 * D) = N mod D + D * ((N / D) mod 2)).
  { rewrite (Z.mul_comm 2 D). apply Z.rem_mul_r; lia. }
  pose proof (Z.mod_pos_bound (N / D) 2 ltac:(lia)) as Hpar.
  assert (Hodd : Z.odd (N / D) = ((N / D) mod 2 =? 1)).
  { rewrite Zmod_odd. destruct (Z.odd (N / D)); reflexivity. }
  repeat split.
  - lia.
  - rewrite shr_1_m by assumption. rewrite Hm.
    rewrite (Z.mul_comm 2 D), <- Z.div_div by lia. reflexivity.
  - rewrite shr_1_r by assumption. rewrite Hm, Hodd, Hmod.
    assert ((N / D) mod 2 = 0 \/ (N / D) mod 2 = 1) as [H|H] by lia;
      rewrite H; bool_cases.
  - rewrite shr_1_s, Hr, Hs, Hmod.
    assert ((N / D) mod 2 = 0 \/ (N / D) mod 2 = 1) as [H|H] by lia;
      rewrite H; bool_cases.
Qed.

Lemma pow2_xO p : 2 ^ Z.pos p~0 = 2 ^ Z.pos p * 2 ^ Z.pos p.
Proof.
  replace (Z.pos p~0) with (Z.pos p + Z.pos p) by lia.
  apply Z.pow_add_r; lia.
Qed.

Lemma pow2_xI p : 2 ^ Z.pos p~1 = 2 ^ Z.pos p * (2 ^ Z.pos p * 2).
Proof.
  replace (Z.pos p~1) with (Z.pos p + (Z.pos p + 1)) by lia.
  rewrite !Z.pow_add_r by lia. reflexivity.
Qed.

Lemma located_iter N : 0 <= N ->
  forall p D mrs, located N D mrs ->
    located N (2 ^ Zpos p * D) (SpecFloat.iter_pos shr_1 p mrs).
Proof.
  intros HN. induction p as [p IH|p IH|]; intros D mrs H; simpl SpecFloat.iter_pos.
  - apply located_shr_1 in H; [|assumption].
    apply IH in H. apply IH in H.
    replace (2 ^ Z.pos p~1 * D) with (2 ^ Z.pos p * (2 ^ Z.pos p * (2 * D)));
      [assumption|].
    rewrite pow2_xI. ring.
  - apply IH in H. apply IH in H.
    replace (2 ^ Z.pos p~0 * D) with (2 ^ Z.pos p * (2 ^ Z.pos p * D));
      [assumption|].
    rewrite pow2_xO. ring.
  - apply located_shr_1 in H; [|assumption]. exact H.
Qed.

Lemma located_of_loc D q r :
  0 < D -> 0 <= r < D ->
  located (q * D + r) D (shr_record_of_loc q (new_location D r)).
Proof.
  intros HD Hr.
  assert (Hq : (q * D + r) / D = q).
  { symmetry. apply (Z.div_unique_pos _ _ _ r); lia. }
  assert (Hm : (q * D + r) mod D = r).
  { symmetry. apply (Z.mod_unique_pos _ _ q); lia. }
  unfold located. rewrite Hq, Hm.
  unfold new_location, new_location_even, new_location_odd.
  destruct (Z.even D) eqn:Ev.
  - destruct (Z.eqb_spec r 0) as [->|Hr0]; simpl.
    + repeat split; bool_cases.
    + destruct (Z.compare_spec (2 * r) D); simpl; repeat split; bool_cases.
  - assert (Hodd : 2 * r <> D).
    { intros <-. rewrite Z.even_mul in Ev. discriminate. }
    destruct (Z.eqb_spec r 0) as [->|Hr0]; simpl.
    + repeat split; bool_cases.
    + destruct (Z.compare_spec (2 * r + 1) D); simpl; repeat split; bool_cases.
Qed.

(** Rounding to nearest moves the mantissa by at most one half. *)
Lemma round_nearest_even_located N D mrs :
  0 <= N -> located N D mrs ->
  let mr := round_nearest_even (shr_m mrs) (loc_of_shr_record mrs) in
  shr_m mrs <= mr <= shr_m mrs + 1 /\ Z.abs (2 * D * mr - 2 * N) <= D.
Proof.
  intros HN (HD & Hm & Hr & Hs).
  pose proof (Z.mod_pos_bound N D HD) as Hrem.
  pose proof (Z.div_mod N D ltac:(lia)) as Hdm.
  destruct mrs as [m r s]; simpl in *. subst m.
  destruct r, s; simpl;
    repeat match goal with
    | H : _ = (Z.leb ?a ?b) |- _ => destruct (Z.leb_spec a b); try discriminate H; clear H
    | H : _ = negb (Z.eqb ?a ?b) && _ |- _ => destruct (Z.eqb_spec a b); simpl in H
    | H : _ = negb (Z.eqb ?a ?b) |- _ => destruct (Z.eqb_spec a b); simpl in H
    end; try discriminate; try (destruct (Z.even (N / D))); split; try lia; nia.
Qed.

Lemma digits2_pos_size p : digits2_pos p = Pos.size p.
Proof. induction p; simpl; congruence. Qed.

Lemma Zdigits2_bounds m :
  0 < m -> 2 ^ (Zdigits2 m - 1) <= m < 2 ^ Zdigits2 m.
Proof.
  destruct m as [|p|p]; try lia. intros _. simpl.
  rewrite digits2_pos_size.
  pose proof (Z.log2_spec (Z.pos p) ltac:(lia)) as H.
  assert (E : Z.pos (Pos.size p) = Z.succ (Z.log2 (Z.pos p))).
  { destruct p; simpl; lia. }
  rewrite E. replace (Z.succ (Z.log2 (Z.pos p)) - 1) with (Z.log2 (Z.pos p)) by lia.
  exact H.
Qed.

Lemma Zdigits2_nonneg m : 0 <= Zdigits2 m.
Proof. destruct m; simpl; lia. Qed.

Lemma Zdigits2_le m k : 0 <= k -> 0 <= m < 2 ^ k -> Zdigits2 m <= k.
Proof.
  intros Hk [H0 Hm]. destruct (Z.eq_dec m 0) as [->|Hne]; [simpl; lia|].
  pose proof (Zdigits2_bounds m ltac:(lia)) as [Hlo _].
  destruct (Z.le_gt_cases (Zdigits2 m) k) as [|Hgt]; [assumption|exfalso].
  assert (2 ^ k <= 2 ^ (Zdigits2 m - 1)) by (apply Z.pow_le_mono_r; lia).
  lia.
Qed.

Lemma fexp_eq e : fexp prec emax e = Z.max (e - 53) (-1074).
Proof. reflexivity. Qed.

Lemma shr_m_of_loc m l : shr_m (shr_record_of_loc m l) = m.
Proof. destruct l as [|[]]; reflexivity. Qed.

(** The first shift of [binary_round_aux]: the mantissa is brought to the
    exponent [Z.max ex (fexp (digits + ex))], keeping track of the
    position of the exact quotient [N / D]. *)
Lemma shr_fexp_located N D mx ex lx :
  0 <= N -> located N D (shr_record_of_loc mx lx) ->
  let er := Z.max ex (fexp prec emax (Zdigits2 mx + ex)) in
  exists mrs,
    shr_fexp prec emax mx ex lx = (mrs, er)
    /\ located N (2 ^ (er - ex) * D) mrs
    /\ 0 <= shr_m mrs < 2 ^ 53.
Proof.
  intros HN Hloc er.
  assert (Hmx : mx = N / D).
  { destruct Hloc as (_ & Hm & _). rewrite shr_m_of_loc in Hm. exact Hm. }
  assert (HD : 0 < D) by (destruct Hloc; assumption).
  assert (Hmx0 : 0 <= mx) by (rewrite Hmx; apply Z.div_pos; lia).
  assert (Hk : 0 <= er - ex) by (unfold er; lia).
  assert (Hdig : mx < 2 ^ 53 * 2 ^ (er - ex)).
  { destruct (Z.eq_dec mx 0) as [->|Hne]; [lia|].
    pose proof (Zdigits2_bounds mx ltac:(lia)) as [_ Hhi].
    pose proof (Zdigits2_nonneg mx).
    rewrite <- Z.pow_add_r by lia.
    eapply Z.lt_le_trans; [exact Hhi|].
    apply Z.pow_le_mono_r; [lia|]. unfold er. rewrite fexp_eq. lia. }
  assert (Hres : forall mrs, located N (2 ^ (er - ex) * D) mrs ->
                             0 <= shr_m mrs < 2 ^ 53).
  { intros mrs (HD' & Hm & _). rewrite Hm.
    rewrite (Z.mul_comm _ D), <- Z.div_div, <- Hmx by lia. split.
    - apply Z.div_pos; lia.
    - apply Z.div_lt_upper_bound; lia. }
  unfold shr_fexp, shr.
  destruct (fexp prec emax (Zdigits2 mx + ex) - ex) as [|p|p] eqn:En.
  - assert (E : er = ex) by (unfold er; lia).
    exists (shr_record_of_loc mx lx).
    assert (L : located N (2 ^ (er - ex) * D) (shr_record_of_loc mx lx)).
    { replace (2 ^ (er - ex) * D) with D; [exact Hloc|].
      replace (er - ex) with 0 by lia. rewrite Z.pow_0_r. lia. }
    split; [congruence|]. split; [exact L|apply Hres, L].
  - assert (E : er = ex + Z.pos p) by (unfold er; lia).
    exists (SpecFloat.iter_pos shr_1 p (shr_record_of_loc mx lx)).
    assert (L : located N (2 ^ (er - ex) * D)
                  (SpecFloat.iter_pos shr_1 p (shr_record_of_loc mx lx))).
    { replace (er - ex) with (Z.pos p) by lia. apply located_iter; assumption. }
    split; [congruence|]. split; [exact L|apply Hres, L].
  - assert (E : er = ex) by (unfold er; lia).
    exists (shr_record_of_loc mx lx).
    assert (L : located N (2 ^ (er - ex) * D) (shr_record_of_loc mx lx)).
    { replace (2 ^ (er - ex) * D) with D; [exact Hloc|].
      replace (er - ex) with 0 by lia. rewrite Z.pow_0_r. lia. }
    split; [congruence|]. split; [exact L|apply Hres, L].
Qed.

(** The second shift only acts when rounding carried into a 54th bit. *)
Lemma shr_fexp_exact m e :
  0 <= m <= 2 ^ 53 -> -1074 <= e ->
  shr_fexp prec emax m e loc_Exact =
    if m <? 2 ^ 53 then (Build_shr_record m false false, e)
    else (Build_shr_record (2 ^ 52) false false, e + 1).
Proof.
  intros Hm He. unfold shr_fexp, shr. rewrite fexp_eq.
  destruct (Z.ltb_spec m (2 ^ 53)) as [Hlt|Hge].
  - pose proof (Zdigits2_le m 53 ltac:(lia) ltac:(lia)).
    pose proof (Zdigits2_nonneg m).
    destruct (Z.max (Zdigits2 m + e - 53) (-1074) - e) eqn:En;
      try reflexivity; lia.
  - assert (m = 2 ^ 53) as -> by lia.
    change (Zdigits2 (2 ^ 53)) with 54.
    replace (Z.max (54 + e - 53) (-1074) - e) with 1 by lia.
    reflexivity.
Qed.

(** What [binary_round_aux] returns for a non-negative mantissa [mx] that
    is the integer part of [N / D]: a mantissa [mr] at exponent [er] within
    half a unit of the exact quotient, renormalised when rounding carried. *)
Lemma binary_round_aux_spec sx mx ex lx N D :
  0 <= N -> located N D (shr_record_of_loc mx lx) ->
  let er := Z.max ex (fexp prec emax (Zdigits2 mx + ex)) in
  exists mr,
    0 <= mr <= 2 ^ 53
    /\ Z.abs (2 * (2 ^ (er - ex) * D) * mr - 2 * N) <= 2 ^ (er - ex) * D
    /\ ((mr = 0 /\ binary_round_aux prec emax sx mx ex lx = S754_zero sx)
        \/ exists m e,
            ((mr = Z.pos m /\ mr < 2 ^ 53 /\ e = er)
             \/ (mr = 2 * Z.pos m /\ mr = 2 ^ 53 /\ e = er + 1))
            /\ binary_round_aux prec emax sx mx ex lx =
                 if e <=? 971 then S754_finite sx m e else S754_infinity sx).
Proof.
  intros HN Hloc er.
  destruct (shr_fexp_located N D mx ex lx HN Hloc) as (mrs & E1 & L1 & B1).
  fold er in E1, L1.
  pose proof (round_nearest_even_located N _ mrs HN L1) as [Hmr Habs].
  set (mr := round_nearest_even (shr_m mrs) (loc_of_shr_record mrs)) in *.
  assert (Her : -1074 <= er) by (unfold er; rewrite fexp_eq; lia).
  exists mr. split; [lia|]. split; [exact Habs|].
  unfold binary_round_aux. rewrite E1. fold mr.
  rewrite (shr_fexp_exact mr er) by lia.
  destruct (Z.ltb_spec mr (2 ^ 53)) as [Hlt|Hge]; cbn [shr_m].
  - destruct mr as [|m|m] eqn:Em; [left; auto| |lia].
    right. exists m, er. split; [left; auto|].
    reflexivity.
  - right. assert (mr = 2 ^ 53) as Em by lia.
    exists (2 ^ 52)%positive, (er + 1). split; [right; repeat split|].
    + rewrite Em. reflexivity.
    + exact Em.
    + reflexivity.
Qed.

Lemma SFdiv_core_nonneg a b :
  0 <= a -> 0 < b ->
  let e0 := Z.min (fexp prec emax (Zdigits2 a - Zdigits2 b)) 0 in
  SFdiv_core_binary prec emax a 0 b 0 =
    (a * 2 ^ (- e0) / b, e0, new_location b ((a * 2 ^ (- e0)) mod b)).
Proof.
  intros Ha Hb e0. unfold SFdiv_core_binary.
  rewrite !Z.add_0_r. change (0 - 0) with 0. fold e0.
  assert (He0 : e0 <= 0) by (unfold e0; lia).
  assert (Hm : match 0 - e0 with
               | Z.pos _ => Z.shiftl a (0 - e0)
               | 0 => a
               | Z.neg _ => 0
               end = a * 2 ^ (- e0)).
  { replace (0 - e0) with (- e0) by lia.
    destruct (- e0) as [|p|p] eqn:E; [lia| |lia].
    apply Z.shiftl_mul_pow2. lia. }
  rewrite Hm. unfold Z.div, Z.modulo.
  destruct (Z.div_eucl (a * 2 ^ (- e0)) b). reflexivity.
Qed.

(** The quotient of two ints as a float: sign, mantissa and exponent, and
    the distance of the rounded mantissa from the exact quotient. *)
Lemma int_truediv_spec a b :
  0 < b ->
  let A := Z.abs a in
  let sg := a <? 0 in
  let e0 := Z.min (fexp prec emax (Zdigits2 A - Zdigits2 b)) 0 in
  let er := Z.max e0 (fexp prec emax (Zdigits2 (A * 2 ^ (- e0) / b) + e0)) in
  exists mr,
    0 <= mr <= 2 ^ 53
    /\ Z.abs (2 * (2 ^ (er - e0) * b) * mr - 2 * (A * 2 ^ (- e0)))
       <= 2 ^ (er - e0) * b
    /\ ((mr = 0 /\ int_truediv a b = Ok (S754_zero sg))
        \/ exists m e,
            ((mr = Z.pos m /\ mr < 2 ^ 53 /\ e = er)
             \/ (mr = 2 * Z.pos m /\ mr = 2 ^ 53 /\ e = er + 1))
            /\ int_truediv a b =
                 if e <=? 971 then Ok (S754_finite sg m e)
                 else Raise OverflowError).
Proof.
  intros Hb A sg e0 er.
  assert (HA : 0 <= A) by (unfold A; lia).
  assert (He0 : e0 <= 0) by (unfold e0; lia).
  assert (HN : 0 <= A * 2 ^ (- e0)) by (apply Z.mul_nonneg_nonneg; lia).
  pose proof (SFdiv_core_nonneg A b HA Hb) as Hcore. cbv zeta in Hcore.
  fold e0 in Hcore.
  pose proof (located_of_loc b (A * 2 ^ (- e0) / b) ((A * 2 ^ (- e0)) mod b) Hb
                (Z.mod_pos_bound _ _ Hb)) as Hloc.
  replace (A * 2 ^ (- e0) / b * b + (A * 2 ^ (- e0)) mod b)
    with (A * 2 ^ (- e0)) in Hloc
    by (rewrite (Z.div_mod (A * 2 ^ (- e0)) b) at 1; lia).
  destruct (binary_round_aux_spec sg _ e0 _ _ _ HN Hloc)
    as (mr & Hmr & Habs & Hres).
  fold er in Habs, Hres.
  exists mr. split; [exact Hmr|]. split; [exact Habs|].
  unfold int_truediv.
  replace (b =? 0) with false by (symmetry; apply Z.eqb_neq; lia).
  replace (xorb (a <? 0) (b <? 0)) with sg
    by (replace (b <? 0) with false by (symmetry; apply Z.ltb_ge; lia);
        unfold sg; destruct (a <? 0); reflexivity).
  replace (Z.abs b) with b by lia. fold A. rewrite Hcore.
  destruct Hres as [[H0 ->]|(m & e & Hme & ->)]; [left; auto|].
  right. exists m, e. split; [exact Hme|].
  destruct (e <=? 971); reflexivity.
Qed.

Lemma ceil_div_unique a b c :
  0 < b -> (c - 1) * b < a <= c * b -> ceil_div a b = c.
Proof.
  intros Hb H. unfold ceil_div.
  assert (E : - a / b = - c); [|lia].
  symmetry. apply (Z.div_unique_pos _ _ _ (c * b - a)); lia.
Qed.

Lemma ceil_div_bounds a b :
  0 < b -> (ceil_div a b - 1) * b < a <= ceil_div a b * b.
Proof.
  intros Hb. unfold ceil_div.
  pose proof (Z.div_mod (- a) b ltac:(lia)).
  pose proof (Z.mod_pos_bound (- a) b Hb). nia.
Qed.

Lemma ceil_scaled_unique m e c :
  e <= 0 -> (c - 1) * 2 ^ (- e) < m <= c * 2 ^ (- e) -> ceil_scaled m e = c.
Proof.
  intros He H. unfold ceil_scaled.
  destruct (Z.leb_spec 0 e) as [H0|H0].
  - assert (e = 0) as -> by lia. simpl in *. lia.
  - apply (ceil_div_unique m (2 ^ (- e)) c); [|exact H].
    apply Z.pow_pos_nonneg; lia.
Qed.

Lemma ceil_scaled_double m e : ceil_scaled (2 * m) e = ceil_scaled m (e + 1).
Proof.
  unfold ceil_scaled.
  destruct (Z.leb_spec 0 e) as [H0|H0], (Z.leb_spec 0 (e + 1)) as [H1|H1];
    try lia.
  - rewrite Z.pow_add_r by lia. change (2 ^ 1) with 2. ring.
  - assert (e = -1) as -> by lia. simpl.
    replace (- (2 * m)) with ((- m) * 2) by ring.
    change (2 ^ 1) with 2. rewrite Z.div_mul by lia. lia.
  - replace (- e) with (1 + - (e + 1)) by lia.
    rewrite Z.pow_add_r by lia. change (2 ^ 1) with 2.
    replace (- (2 * m)) with (2 * (- m)) by ring.
    rewrite Z.div_mul_cancel_l by (try apply Z.pow_nonzero; lia).
    reflexivity.
Qed.

(** Below the point where half a unit in the last place reaches [1 / b],
    rounding the quotient cannot cross an integer: the ceiling of the
    float quotient is the exact ceiling. *)
Lemma ceil_truediv_exact a b :
  0 < a -> 0 < b -> a < 2 ^ 54 -> a < b * 2 ^ (54 - Zdigits2 b) ->
  result_bind (int_truediv a b) math_ceil = Ok (ceil_div a b).
Proof.
  intros Ha Hb Ha54 Hab.
  pose proof (Zdigits2_bounds b Hb) as [Hblo Hbhi].
  pose proof (Zdigits2_nonneg b) as Hbeta0.
  set (beta := Zdigits2 b) in *.
  assert (Hbeta : beta <= 54).
  { destruct (Z.le_gt_cases beta 54) as [|Hgt]; [assumption|].
    rewrite Z.pow_neg_r in Hab by lia. lia. }
  assert (Hbeta1 : 1 <= beta).
  { destruct (Z.le_gt_cases 1 beta) as [|Hlt]; [assumption|].
    assert (beta = 0) as E by lia. rewrite E in Hbhi. simpl in Hbhi. lia. }
  pose proof (Zdigits2_le a 54 ltac:(lia) ltac:(lia)) as Hda.
  pose proof (Zdigits2_nonneg a) as Hda0.
  destruct (int_truediv_spec a b Hb) as (mr & Hmr & Habs & Hres).
  replace (Z.abs a) with a in * by lia.
  replace (a <? 0) with false in * by (symmetry; apply Z.ltb_ge; lia).
  fold beta in Habs, Hres.
  set (e0 := Z.min (fexp prec emax (Zdigits2 a - beta)) 0) in *.
  set (Q := a * 2 ^ (- e0) / b) in *.
  set (er := Z.max e0 (fexp prec emax (Zdigits2 Q + e0))) in *.
  assert (He0 : e0 <= 1 - beta) by (unfold e0; rewrite fexp_eq; lia).
  assert (HQ : 0 <= Q < 2 ^ (54 - beta - e0)).
  { unfold Q. split; [apply Z.div_pos; [apply Z.mul_nonneg_nonneg|]; lia|].
    apply Z.div_lt_upper_bound; [lia|].
    replace (54 - beta - e0) with ((54 - beta) + - e0) by lia.
    rewrite Z.pow_add_r by lia.
    assert (0 < 2 ^ (- e0)) by (apply Z.pow_pos_nonneg; lia). nia. }
  pose proof (Zdigits2_le Q (54 - beta - e0) ltac:(lia) HQ) as HdQ.
  assert (Her : e0 <= er <= 1 - beta) by (unfold er; rewrite fexp_eq; lia).
  (* scale the distance down to the exponent [er] *)
  set (P := 2 ^ (- er)).
  set (T := 2 ^ (er - e0)) in *.
  assert (HP : 0 < P) by (apply Z.pow_pos_nonneg; lia).
  assert (HT : 0 < T) by (apply Z.pow_pos_nonneg; lia).
  assert (HTP : 2 ^ (- e0) = T * P).
  { unfold T, P. rewrite <- Z.pow_add_r by lia. f_equal. lia. }
  assert (HbP : b < 2 * P).
  { assert (2 ^ (beta - 1) <= P) by (apply Z.pow_le_mono_r; lia).
    replace beta with (1 + (beta - 1)) in Hbhi by lia.
    rewrite Z.pow_add_r in Hbhi by lia. change (2 ^ 1) with 2 in Hbhi. lia. }
  rewrite HTP in Habs.
  assert (Hd : Z.abs (2 * b * mr - 2 * a * P) <= b).
  { replace (2 * (T * b) * mr - 2 * (a * (T * P)))
      with (T * (2 * b * mr - 2 * a * P)) in Habs by ring.
    rewrite Z.abs_mul, (Z.abs_eq T) in Habs by lia.
    apply (Z.mul_le_mono_pos_l _ _ T); assumption. }
  pose proof (ceil_div_bounds a b Hb) as Hc.
  set (c := ceil_div a b) in *.
  assert (Hmc : (c - 1) * P < mr <= c * P) by nia.
  assert (Hc1 : 1 <= c) by nia.
  destruct Hres as [[H0 _]|(m & e & Hme & ->)]; [nia|].
  assert (He : e <= 971) by (destruct Hme as [(_ & _ & ->)|(_ & _ & ->)]; lia).
  replace (e <=? 971) with true by (symmetry; apply Z.leb_le; exact He).
  simpl. f_equal.
  destruct Hme as [(Em & _ & ->)|(Em & _ & ->)].
  - rewrite <- Em. apply ceil_scaled_unique; [lia|exact Hmc].
  - rewrite <- ceil_scaled_double, <- Em.
    apply ceil_scaled_unique; [lia|exact Hmc].
Qed.



(** On the operands of [main] the quotient is the IEEE 754 quotient of the
    two ints taken as floats, which is how CPython divides ints that fit in
    53 bits; for one megabyte it is [0x1.9ec8e951033d9p+13]. *)
Example int_truediv_is_float_division :
  forallb (fun s =>
             match int_truediv (s * 1024 * 1024) 79 with
             | Ok q =>
                 SFeqb q
                   (SFdiv prec emax
                      (binary_normalize prec emax (s * 1024 * 1024) 0 false)
                      (binary_normalize prec emax 79 0 false))
             | Raise _ => false
             end)
    [1; 2; 3; 4; 5; 6; 7; 8; 9; 10; 11; 12; 13; 14; 15] = true
  /\ int_truediv (1 * 1024 * 1024) 79
     = Ok (S754_finite false 0x19ec8e951033d9 (-39)).
Proof. split; vm_compute; reflexivity. Qed.

End FloatFacts.

(** * Facts about sequences and the encoding *)

Section SeqFacts.
Context {A : Type}.
Implicit Types (s : list A) (k n : Z).

Lemma seq_mul_nonpos s k : k <= 0 -> seq_mul s k = [].
Proof.
  intros Hk. unfold seq_mul. replace (Z.to_nat k) with O by lia. reflexivity.
Qed.

Lemma seq_mul_succ s k : 0 <= k -> seq_mul s (k + 1) = s ++ seq_mul s k.
Proof.
  intros Hk. unfold seq_mul.
  replace (Z.to_nat (k + 1)) with (S (Z.to_nat k)) by lia. reflexivity.
Qed.

Lemma seq_mul_add s j k :
  0 <= j -> 0 <= k -> seq_mul s (j + k) = seq_mul s j ++ seq_mul s k.
Proof.
  intros Hj Hk. unfold seq_mul.
  rewrite Z2Nat.inj_add by lia.
  induction (Z.to_nat j) as [|n IH]; simpl; [reflexivity|].
  rewrite IH. apply app_assoc.
Qed.

Lemma len_seq_mul s k : 0 <= k -> len (seq_mul s k) = k * len s.
Proof.
  intros Hk. unfold seq_mul, len.
  rewrite <- (Z2Nat.id k) at 2 by lia.
  induction (Z.to_nat k) as [|n IH]; simpl; [lia|].
  rewrite length_app. lia.
Qed.

Lemma len_nonneg s : 0 <= len s.
Proof. unfold len. lia. Qed.

Lemma slice_to_nonneg s n : 0 <= n -> slice_to s n = take (Z.to_nat n) s.
Proof.
  intros Hn. unfold slice_to.
  destruct (Z.leb_spec 0 n); [reflexivity|lia].
Qed.


Lemma len_slice_to s n : 0 <= n <= len s -> len (slice_to s n) = n.
Proof.
  intros Hn. rewrite slice_to_nonneg by lia. unfold len in *.
  rewrite length_take. lia.
Qed.

(** Cutting at [n] only looks at the copies that reach [n]. *)
Lemma slice_to_seq_mul_more s n j k :
  0 <= n <= j * len s -> 0 <= j <= k ->
  slice_to (seq_mul s k) n = slice_to (seq_mul s j) n.
Proof.
  intros Hn Hjk. rewrite !slice_to_nonneg by lia.
  replace k with (j + (k - j)) by lia.
  rewrite seq_mul_add by lia. apply take_app_le.
  pose proof (len_seq_mul s j ltac:(lia)) as Hl. unfold len in *. lia.
Qed.

(** The cut text is the full copies followed by the start of one more. *)
Lemma slice_to_seq_mul_split s n k :
  0 < len s -> 0 <= n <= k * len s ->
  slice_to (seq_mul s k) n =
    seq_mul s (n / len s) ++ take (Z.to_nat (n mod len s)) s.
Proof.
  intros Hs Hn.
  pose proof (Z.div_mod n (len s) ltac:(lia)) as Hdm.
  pose proof (Z.mod_pos_bound n (len s) Hs) as Hm.
  assert (Hq : 0 <= n / len s) by (apply Z.div_pos; lia).
  set (q := n / len s) in *. set (r := n mod len s) in *.
  pose proof (len_seq_mul s q Hq) as Hl.
  assert (Hlq : length (seq_mul s q) = Z.to_nat (len s * q)).
  { unfold len in Hl |- *. lia. }
  assert (Hqk : q <= k) by nia.
  destruct (Z.eq_dec q k) as [Eq|Hne].
  - assert (Hr : r = 0) by nia.
    rewrite Hr, <- Eq. simpl. rewrite app_nil_r.
    rewrite slice_to_nonneg by lia. apply take_ge. lia.
  - assert (Hn' : 0 <= n <= (q + 1) * len s) by nia.
    rewrite (slice_to_seq_mul_more s n (q + 1) k Hn') by lia.
    rewrite slice_to_nonneg by lia.
    rewrite seq_mul_add by lia.
    rewrite take_app_ge by lia.
    f_equal.
    replace (seq_mul s 1) with s
      by (unfold seq_mul; simpl; symmetry; apply app_nil_r).
    f_equal. lia.
Qed.

End SeqFacts.

Lemma utf8_encode_ascii c : is_ascii c -> utf8_encode_char c = Ok [c].
Proof.
  intros [H0 H1]. unfold utf8_encode_char.
  destruct (Z.ltb_spec c 0); [lia|].
  destruct (Z.ltb_spec c 128); [reflexivity|lia].
Qed.

(** Text made of ASCII characters is its own encoding. *)
Lemma encode_utf8_ascii (s : list Z) : Forall is_ascii s -> encode_utf8 s = Ok s.
Proof.
  induction 1 as [|c s Hc _ IH]; [reflexivity|].
  cbn [encode_utf8]. rewrite utf8_encode_ascii, IH by assumption. reflexivity.
Qed.

Lemma message_ascii : Forall is_ascii message.
Proof.
  apply Forall_forall. intros c Hc.
  assert (forallb (fun c => (0 <=? c) && (c <? 128)) message = true) as H
    by reflexivity.
  rewrite forallb_forall in H. apply list_elem_of_In in Hc.
  apply H in Hc. apply andb_true_iff in Hc as [H0 H1].
  apply Z.leb_le in H0. apply Z.ltb_lt in H1. split; assumption.
Qed.

Lemma seq_mul_ascii (s : list Z) k : Forall is_ascii s -> Forall is_ascii (seq_mul s k).
Proof.
  intros Hs. unfold seq_mul.
  induction (Z.to_nat k) as [|n IH]; simpl; [constructor|].
  apply Forall_app; auto.
Qed.

Lemma slice_to_ascii (s : list Z) n : Forall is_ascii s -> Forall is_ascii (slice_to s n).
Proof.
  intros Hs. unfold slice_to. destruct (0 <=? n); apply Forall_take; assumption.
Qed.

Lemma len_message : len message = 79.
Proof. reflexivity. Qed.

Lemma encode_message : encode_utf8 message = Ok message.
Proof. apply encode_utf8_ascii, message_ascii. Qed.

(** * Facts about the program *)

Lemma repetitions_unfold s :
  repetitions s =
    result_bind (Float.int_truediv (s * 1024 * 1024) 79) Float.math_ceil.
Proof.
  unfold repetitions. rewrite encode_message. cbn [result_bind].
  rewrite len_message. reflexivity.
Qed.

(** Below [79 * 2^27] megabytes the float quotient has the exact ceiling. *)
Lemma repetitions_exact s :
  0 < s < 79 * 2 ^ 27 ->
  repetitions s = Ok (ceil_div (s * 1024 * 1024) 79).
Proof.
  intros Hs. rewrite repetitions_unfold.
  apply FloatFacts.ceil_truediv_exact; try lia.
  change (Zdigits2 79) with 7. lia.
Qed.


(** [create_dummy_file] is the computation of [repetitions] followed by the
    writing and the printing. *)
Lemma create_dummy_file_steps p s w :
  create_dummy_file p s w =
    (reps <- py_lift (repetitions s) ;;
     with_open_w p (fun f =>
       file_write f (slice_to (seq_mul message reps) (s * 1024 * 1024))) ;;
     print (created_line p s))%py w.
Proof.
  unfold create_dummy_file, repetitions, py_bind, py_lift, result_bind.
  destruct (encode_utf8 message) as [encoded|e]; [|reflexivity].
  destruct (Float.int_truediv (s * 1024 * 1024) (len encoded)) as [q|e];
    [|reflexivity].
  destruct (Float.math_ceil q); reflexivity.
Qed.

Lemma open_w_ok w p :
  can_open_w w p = true ->
  open_w p w = (World (<[p := File []]> (files w)) (stdout w), Ok p).
Proof.
  unfold can_open_w, open_w. intros H.
  apply andb_true_iff in H as [H H3]. apply andb_true_iff in H as [H1 H2].
  apply negb_true_iff in H1.
  destruct p as [|c p]; [discriminate|]. rewrite H1.
  destruct (parent_error w (os_path_dirname (c :: p))); [discriminate|].
  reflexivity.
Qed.

Lemma open_w_fail w p :
  can_open_w w p = false -> exists e, open_w p w = (w, Raise e).
Proof.
  unfold can_open_w, open_w. intros H.
  destruct p as [|c p]; [eauto|].
  destruct (is_dir w (c :: p)); [eauto|].
  destruct (parent_error w (os_path_dirname (c :: p))); [eauto|discriminate].
Qed.

(** The run of [create_dummy_file] once the number of copies is known and
    the file can be opened. *)
Lemma create_dummy_file_ok p s w reps :
  repetitions s = Ok reps -> can_open_w w p = true ->
  create_dummy_file p s w =
    (World (<[p := File (slice_to (seq_mul message reps) (s * 1024 * 1024))]> (files w))
           (stdout w ++ created_line p s ++ [10]),
     Ok tt).
Proof.
  intros Hr Ho. rewrite create_dummy_file_steps.
  unfold with_open_w, py_bind, py_lift.
  rewrite Hr, (open_w_ok w p Ho). unfold file_write.
  rewrite encode_utf8_ascii
    by (apply slice_to_ascii, seq_mul_ascii, message_ascii).
  cbn [files stdout]. rewrite lookup_insert_eq, insert_insert_eq.
  reflexivity.
Qed.

Lemma create_dummy_file_no_reps p s w e :
  repetitions s = Raise e -> create_dummy_file p s w = (w, Raise e).
Proof.
  intros Hr. rewrite create_dummy_file_steps.
  unfold py_bind, py_lift. rewrite Hr. reflexivity.
Qed.

Lemma create_dummy_file_no_open p s w :
  can_open_w w p = false -> exists e, create_dummy_file p s w = (w, Raise e).
Proof.
  intros Ho. rewrite create_dummy_file_steps.
  unfold with_open_w, py_bind, py_lift.
  destruct (repetitions s) as [reps|e]; [|eauto].
  destruct (open_w_fail w p Ho) as [e ->]. eauto.
Qed.

(** ** The names and sizes [main] uses *)

Lemma sizes_eq : py_range 1 16 = [1; 2; 3; 4; 5; 6; 7; 8; 9; 10; 11; 12; 13; 14; 15].
Proof. reflexivity. Qed.

Lemma in_sizes s : 1 <= s <= 15 <-> In s (py_range 1 16).
Proof. rewrite sizes_eq. simpl. lia. Qed.

Lemma names_checked :
  forallb (fun s =>
    bool_decide (os_path_dirname (dummy_name s) = output_dir)
    && negb (bool_decide (dummy_name s = output_dir))
    && negb (bool_decide (drop_slashes (dummy_name s) = []))
    && forallb (fun t => (s =? t) || negb (bool_decide (dummy_name s = dummy_name t)))
         (py_range 1 16))
    (py_range 1 16) = true.
Proof. vm_compute. reflexivity. Qed.

Lemma name_facts s :
  1 <= s <= 15 ->
  os_path_dirname (dummy_name s) = output_dir
  /\ dummy_name s <> output_dir
  /\ drop_slashes (dummy_name s) <> []
  /\ forall t, 1 <= t <= 15 -> dummy_name s = dummy_name t -> s = t.
Proof.
  intros Hs. pose proof names_checked as H.
  rewrite forallb_forall in H. specialize (H s (proj1 (in_sizes s) Hs)).
  apply andb_true_iff in H as [H H4]. apply andb_true_iff in H as [H H3].
  apply andb_true_iff in H as [H1 H2].
  apply bool_decide_eq_true_1 in H1.
  apply negb_true_iff, bool_decide_eq_false_1 in H2.
  apply negb_true_iff, bool_decide_eq_false_1 in H3.
  repeat split; try assumption.
  intros t Ht E. rewrite forallb_forall in H4.
  specialize (H4 t (proj1 (in_sizes t) Ht)).
  apply orb_true_iff in H4 as [H4|H4]; [lia|].
  apply negb_true_iff, bool_decide_eq_false_1 in H4. contradiction.
Qed.

Lemma output_dir_facts :
  ancestors output_dir = [] /\ os_path_dirname output_dir = []
  /\ drop_slashes output_dir <> [].
Proof. repeat split. discriminate. Qed.

Lemma is_dir_lookup w d :
  drop_slashes d <> [] ->
  is_dir w d = match files w !! d with Some Dir => true | _ => false end.
Proof. unfold is_dir. destruct (drop_slashes d); [contradiction|reflexivity]. Qed.

Lemma is_dir_cwd w : is_dir w [] = true.
Proof. reflexivity. Qed.

(** ** [os.makedirs] on the output directory *)

Lemma output_dir_cons : exists c p, output_dir = c :: p.
Proof. eexists. eexists. reflexivity. Qed.

Lemma mkdir_output_dir w :
  os_mkdir output_dir w =
    match files w !! output_dir with
    | Some _ => (w, Raise FileExistsError)
    | None => (World (<[output_dir := Dir]> (files w)) (stdout w), Ok tt)
    end.
Proof.
  destruct output_dir_facts as (Ha & Hd & Hs).
  unfold os_mkdir, path_exists. rewrite (is_dir_lookup w _ Hs), Hd.
  destruct output_dir_cons as (c & p & E). rewrite E at 1.
  unfold parent_error. rewrite is_dir_cwd.
  destruct (files w !! output_dir) as [[|data]|]; reflexivity.
Qed.

Lemma makedirs_output_dir w :
  os_makedirs output_dir true w =
    match os_mkdir output_dir w with
    | (w', Raise e) => if is_dir w' output_dir then (w', Ok tt) else (w', Raise e)
    | r => r
    end.
Proof.
  destruct output_dir_facts as (Ha & Hd & Hs).
  unfold os_makedirs, py_bind. rewrite Ha. reflexivity.
Qed.

Lemma makedirs_exists w :
  files w !! output_dir = Some Dir ->
  os_makedirs output_dir true w = (w, Ok tt).
Proof.
  intros H. rewrite makedirs_output_dir, mkdir_output_dir, H.
  rewrite is_dir_lookup, H by (apply output_dir_facts). reflexivity.
Qed.

Lemma makedirs_absent w :
  files w !! output_dir = None ->
  os_makedirs output_dir true w =
    (World (<[output_dir := Dir]> (files w)) (stdout w), Ok tt).
Proof.
  intros H. rewrite makedirs_output_dir, mkdir_output_dir, H. reflexivity.
Qed.

Lemma makedirs_file w data :
  files w !! output_dir = Some (File data) ->
  os_makedirs output_dir true w = (w, Raise FileExistsError).
Proof.
  intros H. rewrite makedirs_output_dir, mkdir_output_dir, H.
  rewrite is_dir_lookup, H by (apply output_dir_facts). reflexivity.
Qed.

Lemma makedirs_ok w :
  match files w !! output_dir with Some (File _) => false | _ => true end = true ->
  os_makedirs output_dir true w =
    (World (<[output_dir := Dir]> (files w)) (stdout w), Ok tt).
Proof.
  intros H. destruct (files w !! output_dir) as [[|data]|] eqn:E.
  - rewrite (makedirs_exists w E), (insert_id _ _ _ E). destruct w; reflexivity.
  - discriminate.
  - apply makedirs_absent, E.
Qed.

(** ** The loop of [main] *)

Lemma spec_content_eq s :
  0 <= s ->
  slice_to (seq_mul message (ceil_div (s * 1024 * 1024) 79)) (s * 1024 * 1024)
  = spec_content s.
Proof.
  intros Hs. unfold spec_content. rewrite len_message.
  replace (s * 1024 * 1024) with (s * 1048576) by lia.
  apply slice_to_nonneg. lia.
Qed.

Lemma loop_run l :
  Forall (fun s => 1 <= s <= 15) l ->
  forall w,
    is_dir w output_dir = true ->
    Forall (fun s => is_dir w (dummy_name s) = false) l ->
    for_each l (fun size => create_dummy_file (dummy_name size) size) w =
      (World (write_all l (files w)) (stdout w ++ output_lines l), Ok tt).
Proof.
  induction 1 as [|x l Hx Hl IH]; intros w Hdir Hfree.
  - cbn. rewrite app_nil_r. destruct w; reflexivity.
  - destruct (name_facts x Hx) as (Hd & Hne & Hsl & Hinj).
    apply Forall_cons in Hfree as [Hfx Hfl].
    assert (Ho : can_open_w w (dummy_name x) = true).
    { unfold can_open_w, parent_error. rewrite Hfx, Hd, Hdir.
      destruct (dummy_name x); [contradiction|reflexivity]. }
    cbn [for_each]. unfold py_bind at 1.
    rewrite (create_dummy_file_ok _ _ _ _ (repetitions_exact x ltac:(lia)) Ho).
    rewrite (spec_content_eq x) by lia.
    rewrite IH; cbn [files stdout].
    + unfold output_lines. cbn [map concat]. rewrite <- !app_assoc. reflexivity.
    + rewrite is_dir_lookup in Hdir |- * by (apply output_dir_facts).
      cbn [files]. rewrite lookup_insert_ne by assumption. exact Hdir.
    + rewrite Forall_forall in Hl, Hfl |- *. intros t Ht.
      destruct (name_facts t (Hl t Ht)) as (_ & _ & Hslt & _).
      specialize (Hfl t Ht). rewrite is_dir_lookup in Hfl |- * by assumption.
      cbn [files]. destruct (decide (dummy_name x = dummy_name t)) as [E|E].
      * rewrite E, lookup_insert_eq. reflexivity.
      * rewrite lookup_insert_ne by assumption. exact Hfl.
Qed.

Lemma main_run w :
  main_ready w = true ->
  main w =
    (World (write_all (py_range 1 16) (<[output_dir := Dir]> (files w)))
           (stdout w ++ output_lines (py_range 1 16)),
     Ok tt).
Proof.
  unfold main_ready. intros H. apply andb_true_iff in H as [Hd Hf].
  unfold main. unfold py_bind at 1. rewrite (makedirs_ok w Hd).
  rewrite forallb_forall in Hf.
  assert (Hall : Forall (fun s => 1 <= s <= 15) (py_range 1 16)).
  { apply Forall_forall. intros s Hs. apply in_sizes, list_elem_of_In, Hs. }
  rewrite (loop_run _ Hall); [reflexivity| |].
  - rewrite is_dir_lookup by (apply output_dir_facts).
    cbn [files]. rewrite lookup_insert_eq. reflexivity.
  - apply Forall_forall. intros s Hs. apply list_elem_of_In in Hs.
    pose proof (Hf s Hs) as Hfs. apply negb_true_iff in Hfs.
    destruct (name_facts s (proj2 (in_sizes s) Hs)) as (_ & Hne & Hsl & _).
    rewrite is_dir_lookup in Hfs |- * by assumption.
    cbn [files]. rewrite lookup_insert_ne by (apply not_eq_sym, Hne). exact Hfs.
Qed.

(** ** The files left by the loop *)

Lemma write_all_cons x l m :
  write_all (x :: l) m =
    write_all l (<[dummy_name x := File (spec_content x)]> m).
Proof. reflexivity. Qed.

Lemma write_all_other l : forall m p,
  (forall s, In s l -> dummy_name s <> p) -> write_all l m !! p = m !! p.
Proof.
  induction l as [|x l IH]; intros m p Hp; [reflexivity|].
  rewrite write_all_cons.
  rewrite IH by (intros s Hs; apply Hp; right; exact Hs).
  apply lookup_insert_ne, Hp. left. reflexivity.
Qed.

Lemma write_all_lookup l : forall m s,
  Forall (fun s => 1 <= s <= 15) l -> In s l ->
  write_all l m !! dummy_name s = Some (File (spec_content s)).
Proof.
  induction l as [|x l IH]; intros m s Hl Hs; [destruct Hs|].
  apply Forall_cons in Hl as [Hx Hl].
  rewrite write_all_cons.
  destruct (in_dec Z.eq_dec s l) as [Hin|Hnin]; [apply IH; assumption|].
  destruct Hs as [->|Hs]; [|contradiction].
  rewrite write_all_other; [apply lookup_insert_eq|].
  intros t Ht E. rewrite Forall_forall in Hl.
  pose proof (Hl t (proj2 (list_elem_of_In _ _) Ht)) as Ht15.
  destruct (name_facts t Ht15) as (_ & _ & _ & Hinj).
  rewrite (Hinj s Hx E) in Ht. contradiction.
Qed.

Lemma ceil_div_nonneg a b : 0 <= a -> 0 < b -> 0 <= ceil_div a b.
Proof.
  intros Ha Hb. pose proof (FloatFacts.ceil_div_bounds a b Hb). nia.
Qed.

Lemma len_spec_content s : 0 <= s -> len (spec_content s) = s * 1048576.
Proof.
  intros Hs. unfold spec_content. rewrite len_message.
  pose proof (FloatFacts.ceil_div_bounds (s * 1048576) 79 ltac:(lia)) as Hc.
  pose proof (ceil_div_nonneg (s * 1048576) 79 ltac:(lia) ltac:(lia)) as Hc0.
  pose proof (len_seq_mul message _ Hc0) as Hl. rewrite len_message in Hl.
  unfold len in *. rewrite length_take. lia.
Qed.

Lemma spec_content_ascii s : Forall is_ascii (spec_content s).
Proof. apply Forall_take, seq_mul_ascii, message_ascii. Qed.

(** Any number of copies from the exact ceiling on gives the same content. *)
Lemma spec_content_more s k :
  0 <= s -> ceil_div (s * 1048576) 79 <= k ->
  spec_content s = slice_to (seq_mul message k) (s * 1048576).
Proof.
  intros Hs Hk.
  pose proof (FloatFacts.ceil_div_bounds (s * 1048576) 79 ltac:(lia)) as Hc.
  pose proof (ceil_div_nonneg (s * 1048576) 79 ltac:(lia) ltac:(lia)) as Hc0.
  rewrite (slice_to_seq_mul_more message _ (ceil_div (s * 1048576) 79) k)
    by (rewrite ?len_message; lia).
  unfold spec_content. rewrite len_message. symmetry.
  apply slice_to_nonneg. lia.
Qed.

(** ** What a call leaves untouched *)

Lemma create_dummy_file_cases p s w :
  (exists e, create_dummy_file p s w = (w, Raise e))
  \/ (exists reps, repetitions s = Ok reps /\ can_open_w w p = true).
Proof.
  destruct (repetitions s) as [reps|e] eqn:Hr.
  - destruct (can_open_w w p) eqn:Ho; [right; eauto|].
    left. apply create_dummy_file_no_open, Ho.
  - left. exists e. apply create_dummy_file_no_reps, Hr.
Qed.

Lemma create_dummy_file_frame p s w q :
  q <> p -> files (create_dummy_file p s w).1 !! q = files w !! q.
Proof.
  intros Hq.
  destruct (create_dummy_file_cases p s w) as [[e ->]|(reps & Hr & Ho)];
    [reflexivity|].
  rewrite (create_dummy_file_ok p s w reps Hr Ho). cbn [fst files].
  apply lookup_insert_ne. congruence.
Qed.

Lemma loop_frame l q :
  (forall s, In s l -> dummy_name s <> q) ->
  forall w,
    files (for_each l (fun size => create_dummy_file (dummy_name size) size) w).1
      !! q = files w !! q.
Proof.
  induction l as [|x l IH]; intros Hq w; [reflexivity|].
  cbn [for_each]. unfold py_bind at 1.
  pose proof (create_dummy_file_frame (dummy_name x) x w q
                ltac:(apply not_eq_sym, Hq; left; reflexivity)) as Hx.
  destruct (create_dummy_file (dummy_name x) x w) as [w' [[]|e]];
    cbn [fst] in Hx |- *.
  - rewrite IH by (intros s Hs; apply Hq; right; exact Hs). exact Hx.
  - exact Hx.
Qed.

(** A call that succeeded can be repeated, and the files stay as they are. *)
Lemma create_dummy_file_twice p s w w1 :
  create_dummy_file p s w = (w1, Ok tt) ->
  create_dummy_file p s w1 =
    (World (files w1) (stdout w1 ++ created_line p s ++ [10]), Ok tt).
Proof.
  intros H.
  destruct (create_dummy_file_cases p s w) as [[e He]|(reps & Hr & Ho)];
    [congruence|].
  rewrite (create_dummy_file_ok p s w reps Hr Ho) in H.
  apply (f_equal fst) in H. cbn [fst] in H. subst w1.
  assert (Ho1 : can_open_w
                  (World (<[p := File (slice_to (seq_mul message reps) (s * 1024 * 1024))]>
                            (files w))
                         (stdout w ++ created_line p s ++ [10])) p = true).
  { unfold can_open_w in Ho |- *.
    apply andb_true_iff in Ho as [Ho H3]. apply andb_true_iff in Ho as [H1 H2].
    apply negb_true_iff in H1.
    assert (Hsl : drop_slashes p <> []).
    { intros E. unfold is_dir in H1. rewrite E in H1. discriminate. }
    rewrite (is_dir_lookup _ p Hsl). cbn [files]. rewrite lookup_insert_eq, H2.
    cbn [negb andb]. unfold parent_error in H3 |- *.
    destruct (is_dir w (os_path_dirname p)) eqn:Hd;
      [|destruct (files w !! os_path_dirname p); discriminate].
    assert (Hne : p <> os_path_dirname p) by congruence.
    unfold is_dir in Hd |- *. cbn [files].
    destruct (drop_slashes (os_path_dirname p)); [reflexivity|].
    rewrite lookup_insert_ne by assumption. rewrite Hd. reflexivity. }
  rewrite (create_dummy_file_ok p s _ reps Hr Ho1). cbn [files stdout].
  rewrite insert_insert_eq. reflexivity.
Qed.

(** * The properties of the specification *)

Lemma dummy_name_eq size :
  dummy_name size =
    str_lit "dummy_files/dummy_" ++ int_str size ++ str_lit "MB.txt".
Proof. reflexivity. Qed.

Lemma path_1mb_eq : path_1mb = dummy_name 1.
Proof. reflexivity. Qed.

(** The content of a file of [main], as the loop leaves it. *)
Lemma main_file w N :
  1 <= N <= 15 ->
  write_all (py_range 1 16) (<[output_dir := Dir]> (files w)) !! dummy_name N
  = Some (File (spec_content N)).
Proof.
  intros HN. apply write_all_lookup; [|apply in_sizes, HN].
  apply Forall_forall. intros s Hs. apply in_sizes, list_elem_of_In, Hs.
Qed.

(** The text written for a size of [main] and its encoding. *)
Lemma written_text N :
  1 <= N <= 15 ->
  repetitions N = Ok (ceil_div (N * 1024 * 1024) 79)
  /\ encode_utf8
       (slice_to (seq_mul message (ceil_div (N * 1024 * 1024) 79)) (N * 1024 * 1024))
     = Ok (spec_content N).
Proof.
  intros HN. split; [apply repetitions_exact; lia|].
  rewrite spec_content_eq by lia.
  apply encode_utf8_ascii, spec_content_ascii.
Qed.

(** C1. For every N in 1..15, once [main] has run, the file dummy_<N>MB.txt
    of the output directory holds exactly N * 1048576 bytes; they are the
    UTF-8 encoding of the text that [create_dummy_file] wrote for size N. *)
Theorem C1_file_sizes w :
  main_ready w = true ->
  exists w',
    main w = (w', Ok tt)
    /\ forall N, 1 <= N <= 15 ->
       exists reps data,
         repetitions N = Ok reps
         /\ encode_utf8 (slice_to (seq_mul message reps) (N * 1024 * 1024)) = Ok data
         /\ files w' !! (str_lit "dummy_files/dummy_" ++ int_str N ++ str_lit "MB.txt")
            = Some (File data)
         /\ len data = N * 1048576.
Proof.
  intros Hw. eexists. split; [apply main_run, Hw|].
  intros N HN. destruct (written_text N HN) as [Hr He].
  exists (ceil_div (N * 1024 * 1024) 79), (spec_content N).
  split; [exact Hr|]. split; [exact He|]. split.
  - rewrite <- dummy_name_eq. cbn [files]. apply main_file, HN.
  - apply len_spec_content. lia.
Qed.

Lemma C1_file_sizes_witness :
  main_ready empty_world = true
  /\ exists w',
       main empty_world = (w', Ok tt)
       /\ forall N, 1 <= N <= 15 ->
          exists reps data,
            repetitions N = Ok reps
            /\ encode_utf8 (slice_to (seq_mul message reps) (N * 1024 * 1024)) = Ok data
            /\ files w' !! (str_lit "dummy_files/dummy_" ++ int_str N ++ str_lit "MB.txt")
               = Some (File data)
            /\ len data = N * 1048576.
Proof.
  split; [vm_compute; reflexivity|].
  apply (C1_file_sizes empty_world). vm_compute. reflexivity.
Defined.

(** The call of the concrete scenario, with the content it leaves. *)
Lemma one_megabyte_run w :
  can_open_w w path_1mb = true ->
  exists data,
    create_dummy_file path_1mb 1 w =
      (World (<[path_1mb := File data]> (files w))
             (stdout w ++ created_line path_1mb 1 ++ [10]),
       Ok tt)
    /\ len data = 1048576
    /\ take 79 data = message
    /\ data = seq_mul message 13273 ++ take 9 message.
Proof.
  intros Ho.
  pose proof (repetitions_exact 1 ltac:(lia)) as Hr.
  change (ceil_div (1 * 1024 * 1024) 79) with 13274 in Hr.
  exists (slice_to (seq_mul message 13274) (1 * 1024 * 1024)).
  split; [apply create_dummy_file_ok; assumption|].
  assert (Hsplit : slice_to (seq_mul message 13274) (1 * 1024 * 1024) =
                   seq_mul message 13273 ++ take 9 message).
  { rewrite slice_to_seq_mul_split by (rewrite len_message; lia).
    rewrite len_message. reflexivity. }
  split; [|split].
  - apply len_slice_to. rewrite len_seq_mul, len_message; lia.
  - rewrite Hsplit. change 13273 with (13272 + 1).
    rewrite seq_mul_succ by lia. rewrite <- app_assoc.
    apply take_app_length'. reflexivity.
  - exact Hsplit.
Qed.

(** C2 (as the code has it). With the message of app.py, whose encoding has
    79 bytes, [create_dummy_file "dummy_files/dummy_1MB.txt" 1] leaves a file
    of exactly 1,048,576 bytes; its first 79 bytes are the message, and after
    13273 whole copies the last copy is cut 1,048,576 mod 79 = 9 bytes into
    the message. *)
Theorem C2_one_megabyte w :
  can_open_w w (str_lit "dummy_files/dummy_1MB.txt") = true ->
  exists data,
    create_dummy_file (str_lit "dummy_files/dummy_1MB.txt") 1 w =
      (World (<[str_lit "dummy_files/dummy_1MB.txt" := File data]> (files w))
             (stdout w ++ created_line (str_lit "dummy_files/dummy_1MB.txt") 1 ++ [10]),
       Ok tt)
    /\ encode_utf8 message = Ok message
    /\ len message = 79
    /\ len data = 1048576
    /\ take 79 data = message
    /\ 1048576 mod 79 = 9
    /\ data = seq_mul message 13273 ++ take 9 message.
Proof.
  intros Ho. destruct (one_megabyte_run w Ho) as (data & Hrun & Hlen & Hfirst & Hdata).
  exists data. split; [exact Hrun|].
  split; [exact encode_message|]. split; [exact len_message|].
  split; [exact Hlen|]. split; [exact Hfirst|]. split; [reflexivity|exact Hdata].
Qed.

Lemma C2_one_megabyte_witness :
  can_open_w world_with_dir (str_lit "dummy_files/dummy_1MB.txt") = true
  /\ exists data,
       create_dummy_file (str_lit "dummy_files/dummy_1MB.txt") 1 world_with_dir =
         (World (<[str_lit "dummy_files/dummy_1MB.txt" := File data]> (files world_with_dir))
                (stdout world_with_dir
                   ++ created_line (str_lit "dummy_files/dummy_1MB.txt") 1 ++ [10]),
          Ok tt)
       /\ encode_utf8 message = Ok message
       /\ len message = 79
       /\ len data = 1048576
       /\ take 79 data = message
       /\ 1048576 mod 79 = 9
       /\ data = seq_mul message 13273 ++ take 9 message.
Proof.
  split; [vm_compute; reflexivity|].
  apply (C2_one_megabyte world_with_dir). vm_compute. reflexivity.
Defined.

(** C2 as the specification words it fails: the encoded message has 79
    bytes and not 81, 1,048,576 mod 81 is 31 and not 75, and the first 81
    bytes of the file are more than the message. *)
Lemma C2_counterexample :
  (exists enc, encode_utf8 message = Ok enc /\ len enc = 79 /\ len enc <> 81)
  /\ 1048576 mod 81 = 31
  /\ 1048576 mod 81 <> 75
  /\ exists data w',
       create_dummy_file (str_lit "dummy_files/dummy_1MB.txt") 1 world_with_dir
         = (w', Ok tt)
       /\ files w' !! str_lit "dummy_files/dummy_1MB.txt" = Some (File data)
       /\ take 81 data <> message.
Proof.
  split; [exists message; rewrite encode_message, len_message; repeat split; lia|].
  split; [reflexivity|]. split; [discriminate|].
  destruct (one_megabyte_run world_with_dir) as (data & Hrun & Hlen & _ & _);
    [vm_compute; reflexivity|].
  exists data. eexists. split; [exact Hrun|]. split; [apply lookup_insert_eq|].
  intros E. apply (f_equal length) in E. rewrite length_take in E.
  unfold len in Hlen. change (length message) with 79%nat in E. lia.
Qed.

Lemma in_py_range a b s : a <= s < b -> In s (py_range a b).
Proof.
  intros H. unfold py_range. apply in_map_iff.
  exists (Z.to_nat (s - a)). split; [cbn beta; lia|]. apply in_seq. lia.
Qed.

Lemma repetitions_exact_last :
  forallb (fun s =>
             match repetitions s with
             | Ok r => r =? ceil_div (s * 1024 * 1024) 79
             | Raise _ => false
             end)
    (py_range (79 * 2 ^ 27) 10603200556) = true.
Proof. vm_compute. reflexivity. Qed.

(** The float ceiling is exact for every size below 10603200556. *)
Lemma repetitions_exact_tight s :
  0 < s < 10603200556 ->
  repetitions s = Ok (ceil_div (s * 1024 * 1024) 79).
Proof.
  intros Hs. destruct (Z.lt_ge_cases s (79 * 2 ^ 27)) as [Hlt|Hge].
  - apply repetitions_exact. lia.
  - pose proof repetitions_exact_last as H. rewrite forallb_forall in H.
    specialize (H s (in_py_range (79 * 2 ^ 27) 10603200556 s ltac:(lia))).
    destruct (repetitions s) as [r|e]; [|discriminate].
    apply Z.eqb_eq in H. congruence.
Qed.




(** Cutting the text after [n] characters is not, in general, cutting its
    encoding after [n] bytes: the two differ as soon as a character needs
    more than one byte. *)
Example slice_is_not_bytewise :
  encode_utf8 (slice_to (seq_mul [233] 2) 1) = Ok [195; 169]
  /\ result_bind (encode_utf8 (seq_mul [233] 2)) (fun b => Ok (take 1 b))
     = Ok [195].
Proof. split; reflexivity. Qed.

(** C4. For every positive size, the data that [create_dummy_file] writes is
    exactly the first [size * 1024 * 1024] bytes of the UTF-8 encoding of the
    message repeated [repetitions] times: cutting the text by characters, as
    the code does, is cutting its encoding by bytes.  When the float quotient
    is too large for [repetitions] to exist, nothing is opened or written. *)
Theorem C4_written_bytes p s w :
  0 < s -> can_open_w w p = true ->
  match repetitions s with
  | Ok reps =>
      exists full,
        encode_utf8 (seq_mul message reps) = Ok full
        /\ create_dummy_file p s w =
             (World (<[p := File (take (Z.to_nat (s * 1024 * 1024)) full)]> (files w))
                    (stdout w ++ created_line p s ++ [10]),
              Ok tt)
  | Raise e => create_dummy_file p s w = (w, Raise e)
  end.
Proof.
  intros Hs Ho. destruct (repetitions s) as [reps|e] eqn:Hr.
  - exists (seq_mul message reps).
    split; [apply encode_utf8_ascii, seq_mul_ascii, message_ascii|].
    rewrite <- slice_to_nonneg by lia.
    apply create_dummy_file_ok; assumption.
  - apply create_dummy_file_no_reps, Hr.
Qed.

Lemma C4_written_bytes_witness :
  0 < 1
  /\ can_open_w world_with_dir path_1mb = true
  /\ match repetitions 1 with
     | Ok reps =>
         exists full,
           encode_utf8 (seq_mul message reps) = Ok full
           /\ create_dummy_file path_1mb 1 world_with_dir =
                (World (<[path_1mb := File (take (Z.to_nat (1 * 1024 * 1024)) full)]>
                          (files world_with_dir))
                       (stdout world_with_dir ++ created_line path_1mb 1 ++ [10]),
                 Ok tt)
     | Raise e => create_dummy_file path_1mb 1 world_with_dir = (world_with_dir, Raise e)
     end.
Proof.
  split; [lia|]. split; [vm_compute; reflexivity|].
  apply (C4_written_bytes path_1mb 1 world_with_dir); [lia|vm_compute; reflexivity].
Defined.

(** C5. For every N in 1..15 the content of dummy_<N>MB.txt is a prefix of
    the endless repetition of the message: it is [(message * k)[:size]] for
    every [k] from some number on. *)
Theorem C5_prefix_of_repetition w :
  main_ready w = true ->
  exists w',
    main w = (w', Ok tt)
    /\ forall N, 1 <= N <= 15 ->
       exists content data k0,
         files w' !! dummy_name N = Some (File data)
         /\ encode_utf8 content = Ok data
         /\ forall k, k0 <= k ->
              content = slice_to (seq_mul message k) (N * 1048576).
Proof.
  intros Hw. eexists. split; [apply main_run, Hw|].
  intros N HN.
  exists (spec_content N), (spec_content N), (ceil_div (N * 1048576) 79).
  split; [cbn [files]; apply main_file, HN|].
  split; [apply encode_utf8_ascii, spec_content_ascii|].
  intros k Hk. apply spec_content_more; lia.
Qed.

Lemma C5_prefix_of_repetition_witness :
  main_ready empty_world = true
  /\ exists w',
       main empty_world = (w', Ok tt)
       /\ forall N, 1 <= N <= 15 ->
          exists content data k0,
            files w' !! dummy_name N = Some (File data)
            /\ encode_utf8 content = Ok data
            /\ forall k, k0 <= k ->
                 content = slice_to (seq_mul message k) (N * 1048576).
Proof.
  split; [vm_compute; reflexivity|].
  apply (C5_prefix_of_repetition empty_world). vm_compute. reflexivity.
Defined.

(** ** Running [main], and running it again *)

Lemma sizes_all : Forall (fun s => 1 <= s <= 15) (py_range 1 16).
Proof. apply Forall_forall. intros s Hs. apply in_sizes, list_elem_of_In, Hs. Qed.

Lemma main_dir w :
  write_all (py_range 1 16) (<[output_dir := Dir]> (files w)) !! output_dir
  = Some Dir.
Proof.
  rewrite write_all_other; [apply lookup_insert_eq|].
  intros s Hs. apply name_facts, in_sizes, Hs.
Qed.

Lemma main_other w p :
  p <> output_dir -> (forall N, 1 <= N <= 15 -> p <> dummy_name N) ->
  write_all (py_range 1 16) (<[output_dir := Dir]> (files w)) !! p = files w !! p.
Proof.
  intros Hp Hn. rewrite write_all_other.
  - apply lookup_insert_ne. congruence.
  - intros s Hs E. apply (Hn s); [apply in_sizes, Hs|congruence].
Qed.

Lemma write_all_id l : forall m,
  (forall s, In s l -> m !! dummy_name s = Some (File (spec_content s))) ->
  write_all l m = m.
Proof.
  induction l as [|x l IH]; intros m H; [reflexivity|].
  rewrite write_all_cons, insert_id by (apply H; left; reflexivity).
  apply IH. intros s Hs. apply H. right. exact Hs.
Qed.

(** After [main] the world is ready for [main] again. *)
Lemma main_ready_after w out :
  main_ready
    (World (write_all (py_range 1 16) (<[output_dir := Dir]> (files w))) out)
  = true.
Proof.
  unfold main_ready. cbn [files]. rewrite main_dir. cbn [andb].
  apply forallb_forall. intros s Hs. apply negb_true_iff.
  apply in_sizes in Hs.
  rewrite is_dir_lookup by (apply name_facts, Hs).
  cbn [files]. rewrite (main_file w s Hs). reflexivity.
Qed.

Lemma main_again w out :
  write_all (py_range 1 16)
    (<[output_dir := Dir]>
       (files (World (write_all (py_range 1 16) (<[output_dir := Dir]> (files w))) out)))
  = write_all (py_range 1 16) (<[output_dir := Dir]> (files w)).
Proof.
  cbn [files]. rewrite (insert_id _ _ _ (main_dir w)).
  apply write_all_id. intros s Hs. apply main_file, in_sizes, Hs.
Qed.

Lemma can_open_after_main w out N :
  1 <= N <= 15 ->
  can_open_w
    (World (write_all (py_range 1 16) (<[output_dir := Dir]> (files w))) out)
    (dummy_name N) = true.
Proof.
  intros HN. destruct (name_facts N HN) as (Hd & Hne & Hsl & _).
  unfold can_open_w, parent_error. rewrite Hd.
  rewrite !is_dir_lookup by (assumption || apply output_dir_facts).
  cbn [files]. rewrite (main_file w N HN), main_dir.
  destruct (dummy_name N); [contradiction|reflexivity].
Qed.

(** ** [main] completes exactly in the worlds that are ready for it *)

Lemma forallb_false_In {A} (f : A -> bool) l :
  forallb f l = false -> exists x, In x l /\ f x = false.
Proof.
  induction l as [|x l IH]; [discriminate|]. cbn [forallb]. intros H.
  apply andb_false_iff in H as [H|H].
  - exists x. split; [left; reflexivity|exact H].
  - destruct (IH H) as (y & Hy & Hf). exists y. split; [right; exact Hy|exact Hf].
Qed.

Lemma loop_blocked l s :
  Forall (fun s => 1 <= s <= 15) l -> In s l ->
  forall w,
    is_dir w (dummy_name s) = true ->
    exists w' e,
      for_each l (fun size => create_dummy_file (dummy_name size) size) w
      = (w', Raise e).
Proof.
  induction 1 as [|x l Hx Hl IH]; intros Hs w Hdir; [destruct Hs|].
  cbn [for_each]. unfold py_bind at 1.
  destruct (create_dummy_file_cases (dummy_name x) x w)
    as [[e ->]|(reps & Hr & Ho)]; [eauto|].
  rewrite (create_dummy_file_ok _ _ _ _ Hr Ho).
  assert (Hne : dummy_name x <> dummy_name s).
  { intros E. unfold can_open_w in Ho. rewrite E, Hdir in Ho. discriminate. }
  assert (Hin : In s l) by (destruct Hs as [->|Hs]; [contradiction|exact Hs]).
  apply IH; [exact Hin|].
  assert (Hs15 : 1 <= s <= 15).
  { rewrite Forall_forall in Hl. apply Hl, list_elem_of_In, Hin. }
  rewrite is_dir_lookup in Hdir |- * by (apply name_facts, Hs15).
  cbn [files]. rewrite lookup_insert_ne by assumption. exact Hdir.
Qed.

Lemma main_completes_iff_ready w :
  (exists w', main w = (w', Ok tt)) <-> main_ready w = true.
Proof.
  split; [|intros H; eexists; apply main_run, H].
  intros [w' Hrun]. destruct (main_ready w) eqn:Hw; [reflexivity|exfalso].
  unfold main_ready in Hw. unfold main in Hrun. unfold py_bind at 1 in Hrun.
  destruct (files w !! output_dir) as [[|data]|] eqn:Hd.
  - rewrite (makedirs_exists w Hd) in Hrun. cbn [andb] in Hw.
    destruct (forallb_false_In _ _ Hw) as (s & Hs & Hf).
    apply negb_false_iff in Hf.
    destruct (loop_blocked _ s sizes_all Hs w Hf) as (w1 & e & Hl).
    congruence.
  - rewrite (makedirs_file w data Hd) in Hrun. discriminate.
  - rewrite (makedirs_absent w Hd) in Hrun. cbn [andb] in Hw.
    destruct (forallb_false_In _ _ Hw) as (s & Hs & Hf).
    apply negb_false_iff in Hf.
    assert (Hs15 : 1 <= s <= 15) by (apply in_sizes, Hs).
    destruct (name_facts s Hs15) as (_ & Hne & Hsl & _).
    destruct (loop_blocked _ s sizes_all Hs
                (World (<[output_dir := Dir]> (files w)) (stdout w)))
      as (w1 & e & Hl); [|congruence].
    rewrite is_dir_lookup in Hf |- * by assumption.
    cbn [files]. rewrite lookup_insert_ne by (apply not_eq_sym, Hne). exact Hf.
Qed.

(** C6. [main] first makes sure that the directory [dummy_files] exists and
    then calls [create_dummy_file] once for each size 1, 2, ..., 15, in this
    order, with the path dummy_files/dummy_<size>MB.txt; the fifteen files
    dummy_1MB.txt to dummy_15MB.txt, and nothing else, are written. *)
Theorem C6_main_steps w :
  main_ready w = true ->
  main w =
    (os_makedirs (str_lit "dummy_files") true ;;
     for_each [1; 2; 3; 4; 5; 6; 7; 8; 9; 10; 11; 12; 13; 14; 15]
       (fun size =>
          create_dummy_file
            (str_lit "dummy_files/dummy_" ++ int_str size ++ str_lit "MB.txt")
            size))%py w
  /\ exists w0 w',
       os_makedirs (str_lit "dummy_files") true w = (w0, Ok tt)
       /\ is_dir w0 (str_lit "dummy_files") = true
       /\ main w = (w', Ok tt)
       /\ files w' = write_all [1; 2; 3; 4; 5; 6; 7; 8; 9; 10; 11; 12; 13; 14; 15] (files w0)
       /\ stdout w' =
            stdout w ++ output_lines [1; 2; 3; 4; 5; 6; 7; 8; 9; 10; 11; 12; 13; 14; 15]
       /\ (forall N, 1 <= N <= 15 ->
             exists data, files w' !! dummy_name N = Some (File data))
       /\ (forall p, p <> str_lit "dummy_files" ->
             (forall N, 1 <= N <= 15 -> p <> dummy_name N) ->
             files w' !! p = files w !! p).
Proof.
  intros Hw. split; [reflexivity|].
  pose proof (main_run w Hw) as Hrun.
  assert (Hd : match files w !! output_dir with Some (File _) => false | _ => true end = true).
  { unfold main_ready in Hw. apply andb_true_iff in Hw as [Hd _]. exact Hd. }
  eexists. eexists. split; [apply (makedirs_ok w Hd)|].
  split.
  { rewrite is_dir_lookup by (apply output_dir_facts).
    cbn [files]. change (str_lit "dummy_files") with output_dir.
    rewrite lookup_insert_eq. reflexivity. }
  split; [exact Hrun|]. cbn [files stdout]. rewrite <- sizes_eq.
  split; [reflexivity|]. split; [reflexivity|]. split.
  - intros N HN. eexists. apply main_file, HN.
  - intros p Hp Hn. apply main_other; assumption.
Qed.

Lemma C6_main_steps_witness :
  main_ready empty_world = true
  /\ main empty_world =
       (os_makedirs (str_lit "dummy_files") true ;;
        for_each [1; 2; 3; 4; 5; 6; 7; 8; 9; 10; 11; 12; 13; 14; 15]
          (fun size =>
             create_dummy_file
               (str_lit "dummy_files/dummy_" ++ int_str size ++ str_lit "MB.txt")
               size))%py empty_world
  /\ exists w0 w',
       os_makedirs (str_lit "dummy_files") true empty_world = (w0, Ok tt)
       /\ is_dir w0 (str_lit "dummy_files") = true
       /\ main empty_world = (w', Ok tt)
       /\ files w' = write_all [1; 2; 3; 4; 5; 6; 7; 8; 9; 10; 11; 12; 13; 14; 15] (files w0)
       /\ stdout w' =
            stdout empty_world
              ++ output_lines [1; 2; 3; 4; 5; 6; 7; 8; 9; 10; 11; 12; 13; 14; 15]
       /\ (forall N, 1 <= N <= 15 ->
             exists data, files w' !! dummy_name N = Some (File data))
       /\ (forall p, p <> str_lit "dummy_files" ->
             (forall N, 1 <= N <= 15 -> p <> dummy_name N) ->
             files w' !! p = files empty_world !! p).
Proof.
  split; [vm_compute; reflexivity|].
  apply (C6_main_steps empty_world). vm_compute. reflexivity.
Defined.

(** C7. Running the generator twice leaves the files of one run, with the
    same sizes and contents: the second call of [create_dummy_file] on a
    path replaces the file and does not append to it. *)
Theorem C7_run_twice w :
  main_ready w = true ->
  exists w1 w2,
    main w = (w1, Ok tt)
    /\ main w1 = (w2, Ok tt)
    /\ files w2 = files w1
    /\ forall N, 1 <= N <= 15 ->
         create_dummy_file (dummy_name N) N w1 =
           (World (files w1) (stdout w1 ++ created_line (dummy_name N) N ++ [10]),
            Ok tt).
Proof.
  intros Hw. eexists. eexists.
  split; [apply main_run, Hw|].
  split; [apply main_run, main_ready_after|].
  split; [apply main_again|].
  intros N HN. destruct (written_text N HN) as [Hr _].
  rewrite (create_dummy_file_ok _ _ _ _ Hr (can_open_after_main w _ N HN)).
  rewrite spec_content_eq by lia. cbn [files stdout].
  rewrite (insert_id _ _ _ (main_file w N HN)). reflexivity.
Qed.

Lemma C7_run_twice_witness :
  main_ready empty_world = true
  /\ exists w1 w2,
       main empty_world = (w1, Ok tt)
       /\ main w1 = (w2, Ok tt)
       /\ files w2 = files w1
       /\ forall N, 1 <= N <= 15 ->
            create_dummy_file (dummy_name N) N w1 =
              (World (files w1) (stdout w1 ++ created_line (dummy_name N) N ++ [10]),
               Ok tt).
Proof.
  split; [vm_compute; reflexivity|].
  apply (C7_run_twice empty_world). vm_compute. reflexivity.
Defined.

(** C8. Making the directory is idempotent: when [dummy_files] is already
    a directory, [os.makedirs] raises nothing and changes nothing, [main]
    goes on with the loop in the same world, and the directory is still
    there, once, when [main] ends. *)
Theorem C8_makedirs_idempotent w :
  files w !! str_lit "dummy_files" = Some Dir ->
  os_makedirs (str_lit "dummy_files") true w = (w, Ok tt)
  /\ main w =
       for_each (py_range 1 16)
         (fun size => create_dummy_file (dummy_name size) size) w
  /\ files (main w).1 !! str_lit "dummy_files" = Some Dir
  /\ (main_ready w = true -> (main w).2 = Ok tt).
Proof.
  intros Hd. change (str_lit "dummy_files") with output_dir in *.
  pose proof (makedirs_exists w Hd) as Hm.
  assert (Hmain : main w =
                  for_each (py_range 1 16)
                    (fun size => create_dummy_file (dummy_name size) size) w).
  { unfold main. unfold py_bind at 1. rewrite Hm. reflexivity. }
  split; [exact Hm|]. split; [exact Hmain|]. split.
  - rewrite Hmain, loop_frame; [exact Hd|].
    intros s Hs. apply name_facts, in_sizes, Hs.
  - intros Hw. rewrite (main_run w Hw). reflexivity.
Qed.

Lemma C8_makedirs_idempotent_witness :
  files world_with_dir !! str_lit "dummy_files" = Some Dir
  /\ os_makedirs (str_lit "dummy_files") true world_with_dir = (world_with_dir, Ok tt)
  /\ main world_with_dir =
       for_each (py_range 1 16)
         (fun size => create_dummy_file (dummy_name size) size) world_with_dir
  /\ files (main world_with_dir).1 !! str_lit "dummy_files" = Some Dir
  /\ (main_ready world_with_dir = true -> (main world_with_dir).2 = Ok tt).
Proof.
  split; [vm_compute; reflexivity|].
  apply (C8_makedirs_idempotent world_with_dir). vm_compute. reflexivity.
Defined.

(** C9. A call of [create_dummy_file] that creates its file prints exactly
    one line, [Created file '<path>' of size <N>MB with repeated message],
    with the path and the size it was given; a call that raises prints
    nothing. *)
Theorem C9_confirmation_line p s w :
  match create_dummy_file p s w with
  | (w', Ok _) =>
      stdout w' =
        stdout w
          ++ (str_lit "Created file '" ++ p ++ str_lit "' of size "
                ++ int_str s ++ str_lit "MB with repeated message")
          ++ [10]
  | (w', Raise _) => stdout w' = stdout w
  end
  /\ created_line (str_lit "dummy_files/dummy_1MB.txt") 1
     = str_lit "Created file 'dummy_files/dummy_1MB.txt' of size 1MB with repeated message"
  /\ forallb (fun N => forallb (fun c => negb (c =? 10)) (created_line (dummy_name N) N))
       (py_range 1 16) = true.
Proof.
  split; [|split; vm_compute; reflexivity].
  destruct (create_dummy_file_cases p s w) as [[e ->]|(reps & Hr & Ho)];
    [reflexivity|].
  rewrite (create_dummy_file_ok p s w reps Hr Ho). reflexivity.
Qed.




(** * Further properties of the program *)

(** ** One call, over the whole range where the float ceiling is exact *)

Lemma create_dummy_file_exact p s w :
  0 < s < 10603200556 -> can_open_w w p = true ->
  create_dummy_file p s w =
    (World (<[p := File (spec_content s)]> (files w))
           (stdout w ++ created_line p s ++ [10]),
     Ok tt).
Proof.
  intros Hs Ho.
  rewrite (create_dummy_file_ok p s w _ (repetitions_exact_tight s Hs) Ho).
  rewrite spec_content_eq by lia. reflexivity.
Qed.

Lemma seq_mul_lookup {A} (s : list A) k i :
  0 < len s -> 0 <= i < k * len s ->
  seq_mul s k !! Z.to_nat i = s !! Z.to_nat (i mod len s).
Proof.
  intros Hs. unfold seq_mul.
  assert (Hk : forall n i, 0 <= i < Z.of_nat n * len s ->
            concat (replicate n s) !! Z.to_nat i = s !! Z.to_nat (i mod len s)).
  { clear k i. induction n as [|n IH]; intros i Hi; [lia|].
    cbn [replicate concat].
    destruct (Z.lt_ge_cases i (len s)) as [Hlt|Hge].
    - rewrite lookup_app_l by (unfold len in *; lia).
      rewrite Z.mod_small by lia. reflexivity.
    - rewrite lookup_app_r by (unfold len in *; lia).
      replace (Z.to_nat i - length s)%nat with (Z.to_nat (i - len s))
        by (unfold len; lia).
      rewrite IH by lia. f_equal. f_equal.
      replace i with (i - len s + 1 * len s) at 2 by lia.
      symmetry. apply Z.mod_add. lia. }
  intros Hi. apply Hk. 
  destruct (Z.le_gt_cases 0 k); [lia|]. nia.
Qed.

(** The file has exactly the requested size for every size below
    10603200556 megabytes, at whatever path can be opened. *)
Theorem exact_size_wherever_ceiling_is_exact p s w :
  0 < s < 10603200556 -> can_open_w w p = true ->
  exists data,
    create_dummy_file p s w =
      (World (<[p := File data]> (files w))
             (stdout w ++ created_line p s ++ [10]),
       Ok tt)
    /\ len data = s * 1024 * 1024.
Proof.
  intros Hs Ho. exists (spec_content s).
  split; [apply create_dummy_file_exact; assumption|].
  rewrite len_spec_content; lia.
Qed.

Lemma exact_size_wherever_ceiling_is_exact_witness :
  0 < 20 < 10603200556
  /\ can_open_w empty_world (str_lit "big.txt") = true
  /\ exists data,
       create_dummy_file (str_lit "big.txt") 20 empty_world =
         (World (<[str_lit "big.txt" := File data]> (files empty_world))
                (stdout empty_world ++ created_line (str_lit "big.txt") 20 ++ [10]),
          Ok tt)
       /\ len data = 20 * 1024 * 1024.
Proof.
  split; [lia|]. split; [vm_compute; reflexivity|].
  apply (exact_size_wherever_ceiling_is_exact (str_lit "big.txt") 20 empty_world);
    [lia|vm_compute; reflexivity].
Defined.

(** Byte [i] of the file is byte [i mod 79] of the message: the file is the
    message over and over, cut at the requested size. *)
Theorem file_is_periodic p s w :
  0 < s < 10603200556 -> can_open_w w p = true ->
  exists data,
    files (create_dummy_file p s w).1 !! p = Some (File data)
    /\ forall i, 0 <= i < s * 1024 * 1024 ->
         data !! Z.to_nat i = message !! Z.to_nat (i mod 79).
Proof.
  intros Hs Ho. exists (spec_content s).
  rewrite (create_dummy_file_exact p s w Hs Ho). cbn [fst files].
  split; [apply lookup_insert_eq|].
  intros i Hi. unfold spec_content. rewrite len_message.
  rewrite lookup_take_lt by lia.
  pose proof (FloatFacts.ceil_div_bounds (s * 1048576) 79 ltac:(lia)) as Hc.
  rewrite (seq_mul_lookup message _ i) by (rewrite len_message; lia).
  rewrite len_message. reflexivity.
Qed.

Lemma file_is_periodic_witness :
  0 < 20 < 10603200556
  /\ can_open_w empty_world (str_lit "big.txt") = true
  /\ exists data,
       files (create_dummy_file (str_lit "big.txt") 20 empty_world).1
         !! str_lit "big.txt" = Some (File data)
       /\ forall i, 0 <= i < 20 * 1024 * 1024 ->
            data !! Z.to_nat i = message !! Z.to_nat (i mod 79).
Proof.
  split; [lia|]. split; [vm_compute; reflexivity|].
  apply (file_is_periodic (str_lit "big.txt") 20 empty_world);
    [lia|vm_compute; reflexivity].
Defined.

(** Whatever the float quotient gave, the file is never longer than the
    requested size: its length is the smaller of the requested size and the
    length of the copies that were made. *)
Theorem never_longer_than_requested p s w reps :
  0 <= s -> repetitions s = Ok reps -> can_open_w w p = true ->
  exists data,
    create_dummy_file p s w =
      (World (<[p := File data]> (files w))
             (stdout w ++ created_line p s ++ [10]),
       Ok tt)
    /\ len data = Z.min (s * 1024 * 1024) (Z.max 0 reps * 79)
    /\ len data <= s * 1024 * 1024.
Proof.
  intros Hs Hr Ho.
  exists (slice_to (seq_mul message reps) (s * 1024 * 1024)).
  split; [apply create_dummy_file_ok; assumption|].
  assert (Hl : len (seq_mul message reps) = Z.max 0 reps * 79).
  { destruct (Z.le_gt_cases reps 0) as [Hle|Hgt].
    - rewrite seq_mul_nonpos by assumption. unfold len. simpl. lia.
    - rewrite len_seq_mul, len_message by lia. lia. }
  rewrite slice_to_nonneg by lia. unfold len in *.
  rewrite length_take. lia.
Qed.

Lemma never_longer_than_requested_witness :
  0 <= 10603200556
  /\ repetitions 10603200556 = Ok 140737488939345
  /\ can_open_w empty_world (str_lit "big.txt") = true
  /\ exists data,
       create_dummy_file (str_lit "big.txt") 10603200556 empty_world =
         (World (<[str_lit "big.txt" := File data]> (files empty_world))
                (stdout empty_world
                   ++ created_line (str_lit "big.txt") 10603200556 ++ [10]),
          Ok tt)
       /\ len data = Z.min (10603200556 * 1024 * 1024) (Z.max 0 140737488939345 * 79)
       /\ len data <= 10603200556 * 1024 * 1024.
Proof.
  split; [lia|]. split; [vm_compute; reflexivity|].
  split; [vm_compute; reflexivity|].
  apply (never_longer_than_requested (str_lit "big.txt") 10603200556 empty_world
           140737488939345);
    [lia|vm_compute; reflexivity|vm_compute; reflexivity].
Defined.

(** ** How a call fails, and what it leaves alone *)






(** Without the directory there is no file: before [os.makedirs] has run,
    the call that [main] makes for a size raises [FileNotFoundError], or
    [NotADirectoryError] when a regular file has the name of the directory. *)
Theorem no_directory_no_file N w :
  1 <= N <= 15 ->
  files w !! dummy_name N = None ->
  files w !! output_dir <> Some Dir ->
  create_dummy_file (dummy_name N) N w =
    (w, Raise match files w !! output_dir with
              | Some _ => NotADirectoryError
              | None => FileNotFoundError
              end).
Proof.
  intros HN Hfile Hdir.
  destruct (name_facts N HN) as (Hd & Hne & Hsl & _).
  rewrite create_dummy_file_steps. unfold with_open_w, py_bind, py_lift.
  rewrite (repetitions_exact N) by lia.
  unfold open_w, parent_error. rewrite Hd.
  rewrite !is_dir_lookup by (assumption || apply output_dir_facts).
  rewrite Hfile.
  destruct (dummy_name N) as [|c n]; [contradiction|].
  destruct (files w !! output_dir) as [[|data]|]; [contradiction|reflexivity..].
Qed.

Lemma no_directory_no_file_witness :
  1 <= 4 <= 15
  /\ files empty_world !! dummy_name 4 = None
  /\ files empty_world !! output_dir <> Some Dir
  /\ create_dummy_file (dummy_name 4) 4 empty_world =
       (empty_world, Raise match files empty_world !! output_dir with
                           | Some _ => NotADirectoryError
                           | None => FileNotFoundError
                           end).
Proof.
  split; [lia|]. split; [vm_compute; reflexivity|].
  split; [vm_compute; discriminate|].
  apply (no_directory_no_file 4 empty_world);
    [lia|vm_compute; reflexivity|vm_compute; discriminate].
Defined.

(** A call touches no path but its own, whether it returns or raises. *)
Theorem other_paths_untouched p s w q :
  q <> p -> files (create_dummy_file p s w).1 !! q = files w !! q.
Proof. apply create_dummy_file_frame. Qed.

Lemma other_paths_untouched_witness :
  output_dir <> path_1mb
  /\ files (create_dummy_file path_1mb 1 world_with_dir).1 !! output_dir
     = files world_with_dir !! output_dir.
Proof.
  split; [discriminate|].
  apply (other_paths_untouched path_1mb 1 world_with_dir output_dir).
  discriminate.
Defined.

(** ** Calls one after the other *)

(** Calling again with the same path and size, for any path and any size,
    leaves the files as the first call left them; only a second line is
    printed. *)
Theorem same_call_twice p s w :
  (create_dummy_file p s w).2 = Ok tt ->
  create_dummy_file p s (create_dummy_file p s w).1 =
    (World (files (create_dummy_file p s w).1)
           (stdout (create_dummy_file p s w).1 ++ created_line p s ++ [10]),
     Ok tt).
Proof.
  intros H. apply (create_dummy_file_twice p s w).
  destruct (create_dummy_file p s w) as [w1 r]. cbn [snd] in H. cbn [fst].
  congruence.
Qed.

Lemma same_call_twice_witness :
  (create_dummy_file (str_lit "x.txt") (-5) empty_world).2 = Ok tt
  /\ create_dummy_file (str_lit "x.txt") (-5)
       (create_dummy_file (str_lit "x.txt") (-5) empty_world).1 =
       (World (files (create_dummy_file (str_lit "x.txt") (-5) empty_world).1)
              (stdout (create_dummy_file (str_lit "x.txt") (-5) empty_world).1
                 ++ created_line (str_lit "x.txt") (-5) ++ [10]),
        Ok tt).
Proof.
  split; [vm_compute; reflexivity|].
  apply (same_call_twice (str_lit "x.txt") (-5) empty_world).
  vm_compute. reflexivity.
Defined.






(** ** File names *)

Lemma str_lit_inj s t : str_lit s = str_lit t -> s = t.
Proof.
  revert t. induction s as [|a s IH]; intros [|b t] H; try discriminate;
    [reflexivity|].
  cbn [str_lit] in H. injection H as Hab Hst.
  apply N2Z.inj in Hab. f_equal; [|apply IH, Hst].
  rewrite <- (ascii_N_embedding a), <- (ascii_N_embedding b). congruence.
Qed.

Lemma to_int_not_nil z :
  Z.to_int z <> Decimal.Pos Decimal.Nil /\ Z.to_int z <> Decimal.Neg Decimal.Nil.
Proof.
  destruct z as [|p|p]; cbn [Z.to_int]; split; try discriminate;
    intros H; injection H as H;
    exact (DecimalPos.Unsigned.to_uint_nonnil p H).
Qed.

Lemma int_str_inj a b : int_str a = int_str b -> a = b.
Proof.
  unfold int_str. intros H. apply str_lit_inj in H.
  apply DecimalZ.to_int_inj.
  destruct (to_int_not_nil a) as [Ha1 Ha2], (to_int_not_nil b) as [Hb1 Hb2].
  pose proof (NilZero.isi (Z.to_int a) Ha1 Ha2) as Ea.
  pose proof (NilZero.isi (Z.to_int b) Hb1 Hb2) as Eb.
  rewrite H in Ea. congruence.
Qed.

(** Two sizes never share a file: over all the integers, different sizes
    give different paths. *)
Theorem sizes_have_their_own_files a b :
  a <> b -> dummy_name a <> dummy_name b.
Proof.
  intros Hab E. apply Hab. rewrite !dummy_name_eq in E.
  apply app_inv_head, app_inv_tail in E. apply int_str_inj, E.
Qed.

Lemma sizes_have_their_own_files_witness :
  -7 <> 7 /\ dummy_name (-7) <> dummy_name 7.
Proof.
  split; [lia|]. apply (sizes_have_their_own_files (-7) 7). lia.
Defined.

(** ** [main], whatever it finds *)

Lemma for_each_app {A} (l1 l2 : list A) body w :
  for_each (l1 ++ l2) body w = (for_each l1 body ;; for_each l2 body)%py w.
Proof.
  revert w. induction l1 as [|x l1 IH]; intros w; cbn [for_each app].
  - reflexivity.
  - unfold py_bind. destruct (body x w) as [w' [[]|e]]; [|reflexivity].
    rewrite IH. reflexivity.
Qed.

Lemma py_range_nil a b : b <= a -> py_range a b = [].
Proof. intros H. unfold py_range. replace (Z.to_nat (b - a)) with O by lia. reflexivity. Qed.

Lemma py_range_cons a b : a < b -> py_range a b = a :: py_range (a + 1) b.
Proof.
  intros H. unfold py_range.
  replace (Z.to_nat (b - a)) with (S (Z.to_nat (b - (a + 1)))) by lia.
  cbn [seq map]. f_equal; [lia|].
  rewrite <- seq_shift, map_map. apply map_ext. intros i. lia.
Qed.

Lemma py_range_split a k b :
  a <= k < b -> py_range a b = py_range a k ++ k :: py_range (k + 1) b.
Proof.
  intros H. remember (Z.to_nat (k - a)) as n eqn:En.
  revert a H En. induction n as [|n IH]; intros a H En.
  - assert (a = k) as -> by lia.
    rewrite (py_range_nil k k) by lia. apply py_range_cons. lia.
  - rewrite (py_range_cons a b), (py_range_cons a k) by lia.
    cbn [app]. f_equal. apply IH; lia.
Qed.

Lemma create_dummy_file_is_dir x w :
  1 <= x <= 15 -> is_dir w (dummy_name x) = true ->
  create_dummy_file (dummy_name x) x w = (w, Raise IsADirectoryError).
Proof.
  intros Hx Hd. destruct (name_facts x Hx) as (_ & _ & Hsl & _).
  rewrite create_dummy_file_steps. unfold with_open_w, py_bind, py_lift.
  rewrite (repetitions_exact x) by lia. unfold open_w. rewrite Hd.
  destruct (dummy_name x); [contradiction|reflexivity].
Qed.

Lemma first_in_the_way w l :
  Forall (fun s => is_dir w (dummy_name s) = false) l
  \/ exists done x rest,
       l = done ++ x :: rest
       /\ is_dir w (dummy_name x) = true
       /\ Forall (fun s => is_dir w (dummy_name s) = false) done.
Proof.
  induction l as [|y l IH]; [left; constructor|].
  destruct (is_dir w (dummy_name y)) eqn:Hy.
  - right. exists [], y, l. repeat split; [assumption|constructor].
  - destruct IH as [IH|(done & x & rest & -> & Hx & Hdone)].
    + left. constructor; assumption.
    + right. exists (y :: done), x, rest.
      repeat split; [assumption|constructor; assumption].
Qed.

Lemma is_dir_after_writes w l x out :
  Forall (fun s => 1 <= s <= 15) l -> 1 <= x <= 15 ->
  Forall (fun s => is_dir w (dummy_name s) = false) l ->
  is_dir w (dummy_name x) = true ->
  is_dir (World (write_all l (files w)) out) (dummy_name x) = true.
Proof.
  intros Hl Hx Hfree Hd.
  destruct (name_facts x Hx) as (_ & _ & Hsl & _).
  rewrite is_dir_lookup in Hd |- * by assumption. cbn [files].
  rewrite write_all_other; [exact Hd|].
  intros s Hs E. rewrite Forall_forall in Hfree.
  pose proof (Hfree s (proj2 (list_elem_of_In _ _) Hs)) as Hf.
  rewrite is_dir_lookup, E in Hf by (rewrite E; assumption).
  rewrite Hf in Hd. discriminate.
Qed.

(** The loop either writes every file or stops at the first size whose path
    is a directory, with the files and lines of the sizes before it. *)
Lemma loop_outcome l :
  Forall (fun s => 1 <= s <= 15) l ->
  forall w,
    is_dir w output_dir = true ->
    exists done rest r,
      l = done ++ rest
      /\ for_each l (fun size => create_dummy_file (dummy_name size) size) w =
           (World (write_all done (files w)) (stdout w ++ output_lines done), r)
      /\ (r = Ok tt /\ rest = []
          \/ r = Raise IsADirectoryError
             /\ exists x rest', rest = x :: rest' /\ is_dir w (dummy_name x) = true).
Proof.
  intros Hl w Hdir.
  destruct (first_in_the_way w l) as [Hfree|(done & x & rest & -> & Hx & Hdone)].
  - exists l, [], (Ok tt). rewrite app_nil_r.
    split; [reflexivity|]. split; [apply loop_run; assumption|left; auto].
  - apply Forall_app in Hl as [Hl1 Hl2]. apply Forall_cons in Hl2 as [Hx15 _].
    exists done, (x :: rest), (Raise IsADirectoryError).
    split; [reflexivity|]. split; [|right; eauto].
    rewrite for_each_app. unfold py_bind at 1.
    rewrite (loop_run done Hl1 w Hdir Hdone).
    cbn [for_each]. unfold py_bind at 1.
    rewrite create_dummy_file_is_dir;
      [reflexivity|assumption|apply is_dir_after_writes; assumption].
Qed.

Lemma sizes_NoDup : NoDup (py_range 1 16).
Proof.
  rewrite sizes_eq. apply NoDup_ListNoDup.
  repeat (constructor; [cbn [In]; lia|]). constructor.
Qed.

Lemma main_steps w :
  main w =
    match files w !! output_dir with
    | Some (File _) => (w, Raise FileExistsError)
    | _ =>
        for_each (py_range 1 16)
          (fun size => create_dummy_file (dummy_name size) size)
          (World (<[output_dir := Dir]> (files w)) (stdout w))
    end.
Proof.
  unfold main. unfold py_bind at 1.
  destruct (files w !! output_dir) as [[|data]|] eqn:Hd.
  - rewrite (makedirs_exists w Hd), (insert_id _ _ _ Hd). destruct w; reflexivity.
  - rewrite (makedirs_file w data Hd). reflexivity.
  - rewrite (makedirs_absent w Hd). reflexivity.
Qed.

Lemma is_dir_output_dir m out :
  is_dir (World (<[output_dir := Dir]> m) out) output_dir = true.
Proof.
  rewrite is_dir_lookup by (apply output_dir_facts).
  cbn [files]. rewrite lookup_insert_eq. reflexivity.
Qed.

(** [main] returns without an exception exactly when no regular file is
    named [dummy_files] and none of the fifteen paths is a directory. *)
Theorem main_returns_exactly_when_ready w :
  (exists w', main w = (w', Ok tt))
  <-> ((forall data, files w !! str_lit "dummy_files" <> Some (File data))
       /\ forall N, 1 <= N <= 15 -> is_dir w (dummy_name N) = false).
Proof.
  rewrite main_completes_iff_ready. unfold main_ready.
  change (str_lit "dummy_files") with output_dir.
  rewrite andb_true_iff, forallb_forall. split.
  - intros [Hd Hf]. split.
    + intros data E. rewrite E in Hd. discriminate.
    + intros N HN. apply negb_true_iff, Hf, in_sizes, HN.
  - intros [Hd Hf]. split.
    + destruct (files w !! output_dir) as [[|data]|]; try reflexivity.
      exfalso. apply (Hd data). reflexivity.
    + intros N HN. apply negb_true_iff, Hf, in_sizes, HN.
Qed.

(** When a regular file is named [dummy_files], [main] raises
    [FileExistsError] at once: no file is written and nothing is printed. *)
Theorem main_stops_at_file_named_dummy_files w data :
  files w !! str_lit "dummy_files" = Some (File data) ->
  main w = (w, Raise FileExistsError).
Proof.
  intros H. change (str_lit "dummy_files") with output_dir in H.
  rewrite main_steps, H. reflexivity.
Qed.

Lemma main_stops_at_file_named_dummy_files_witness :
  files (World {[ str_lit "dummy_files" := File [1; 2; 3] ]} [])
    !! str_lit "dummy_files" = Some (File [1; 2; 3])
  /\ main (World {[ str_lit "dummy_files" := File [1; 2; 3] ]} [])
     = (World {[ str_lit "dummy_files" := File [1; 2; 3] ]} [],
        Raise FileExistsError).
Proof.
  split; [vm_compute; reflexivity|].
  apply (main_stops_at_file_named_dummy_files
           (World {[ str_lit "dummy_files" := File [1; 2; 3] ]} []) [1; 2; 3]).
  vm_compute. reflexivity.
Defined.

(** [main] stops at the first path that is a directory: it raises
    [IsADirectoryError], the files of the smaller sizes are written and
    their lines printed, and the paths of the other sizes are as before. *)
Theorem main_aborts_at_first_directory k w :
  1 <= k <= 15 ->
  (forall data, files w !! output_dir <> Some (File data)) ->
  is_dir w (dummy_name k) = true ->
  forallb (fun j => negb (is_dir w (dummy_name j))) (py_range 1 k) = true ->
  exists w',
    main w = (w', Raise IsADirectoryError)
    /\ stdout w' = stdout w ++ output_lines (py_range 1 k)
    /\ (forall j, 1 <= j < k ->
          exists data,
            files w' !! dummy_name j = Some (File data)
            /\ len data = j * 1048576)
    /\ (forall j, k <= j <= 15 ->
          files w' !! dummy_name j = files w !! dummy_name j).
Proof.
  intros Hk Hnf Hdk Hfree.
  assert (Hall : forall j, 1 <= j < k -> In j (py_range 1 k))
    by (intros j Hj; apply in_py_range; lia).
  assert (H15 : Forall (fun s => 1 <= s <= 15) (py_range 1 k)).
  { apply Forall_forall. intros s Hs. apply list_elem_of_In in Hs.
    unfold py_range in Hs. apply in_map_iff in Hs as (i & <- & Hi).
    apply in_seq in Hi. lia. }
  assert (Hlt : forall s, In s (py_range 1 k) -> s < k).
  { intros s Hs. unfold py_range in Hs. apply in_map_iff in Hs as (i & <- & Hi).
    apply in_seq in Hi. lia. }
  rewrite forallb_forall in Hfree.
  set (w0 := World (<[output_dir := Dir]> (files w)) (stdout w)).
  assert (Hsame : forall s, 1 <= s <= 15 -> is_dir w0 (dummy_name s) = is_dir w (dummy_name s)).
  { intros s Hs. destruct (name_facts s Hs) as (_ & Hne & Hsl & _).
    rewrite !is_dir_lookup by assumption. unfold w0. cbn [files].
    rewrite lookup_insert_ne by (apply not_eq_sym, Hne). reflexivity. }
  assert (Hfree0 : Forall (fun s => is_dir w0 (dummy_name s) = false) (py_range 1 k)).
  { apply Forall_forall. intros s Hs. apply list_elem_of_In in Hs.
    rewrite Hsame by (rewrite Forall_forall in H15; apply H15, list_elem_of_In, Hs).
    apply negb_true_iff, Hfree, Hs. }
  eexists. split.
  { rewrite main_steps.
    assert (E : match files w !! output_dir with
                | Some (File _) => (w, Raise FileExistsError)
                | _ => for_each (py_range 1 16)
                         (fun size => create_dummy_file (dummy_name size) size) w0
                end = for_each (py_range 1 16)
                        (fun size => create_dummy_file (dummy_name size) size) w0).
    { destruct (files w !! output_dir) as [[|data]|] eqn:E; try reflexivity.
      exfalso. apply (Hnf data). reflexivity. }
    fold w0. rewrite E.
    rewrite (py_range_split 1 k 16) by lia. rewrite for_each_app.
    unfold py_bind at 1.
    rewrite (loop_run _ H15 w0 (is_dir_output_dir _ _) Hfree0).
    cbn [for_each]. unfold py_bind at 1.
    rewrite create_dummy_file_is_dir; [reflexivity|lia|].
    apply is_dir_after_writes; try assumption.
    rewrite Hsame by lia. exact Hdk. }
  cbn [files stdout]. split; [reflexivity|]. split.
  - intros j Hj. exists (spec_content j).
    split; [apply write_all_lookup; [assumption|apply Hall, Hj]|].
    apply len_spec_content. lia.
  - intros j Hj. destruct (name_facts j ltac:(lia)) as (_ & Hne & _ & Hinj).
    rewrite write_all_other.
    + apply lookup_insert_ne, not_eq_sym, Hne.
    + intros s Hs E. pose proof (Hlt s Hs) as Hsk.
      rewrite Forall_forall in H15.
      pose proof (H15 s (proj2 (list_elem_of_In _ _) Hs)) as Hs15.
      pose proof (Hinj s Hs15 (eq_sym E)). lia.
Qed.

Lemma main_aborts_at_first_directory_witness :
  1 <= 3 <= 15
  /\ (forall data, files (World {[ dummy_name 3 := Dir ]} []) !! output_dir
                   <> Some (File data))
  /\ is_dir (World {[ dummy_name 3 := Dir ]} []) (dummy_name 3) = true
  /\ forallb (fun j => negb (is_dir (World {[ dummy_name 3 := Dir ]} []) (dummy_name j)))
       (py_range 1 3) = true
  /\ exists w',
       main (World {[ dummy_name 3 := Dir ]} []) = (w', Raise IsADirectoryError)
       /\ stdout w' = stdout (World {[ dummy_name 3 := Dir ]} [])
                        ++ output_lines (py_range 1 3)
       /\ (forall j, 1 <= j < 3 ->
             exists data,
               files w' !! dummy_name j = Some (File data)
               /\ len data = j * 1048576)
       /\ (forall j, 3 <= j <= 15 ->
             files w' !! dummy_name j
             = files (World {[ dummy_name 3 := Dir ]} []) !! dummy_name j).
Proof.
  split; [lia|]. split; [intros data; vm_compute; discriminate|].
  split; [vm_compute; reflexivity|]. split; [vm_compute; reflexivity|].
  apply (main_aborts_at_first_directory 3 (World {[ dummy_name 3 := Dir ]} []));
    [lia|intros data; vm_compute; discriminate
    |vm_compute; reflexivity|vm_compute; reflexivity].
Defined.

Lemma written_and_left m done rest :
  py_range 1 16 = done ++ rest ->
  (forall N, In N done ->
     exists data,
       write_all done (<[output_dir := Dir]> m) !! dummy_name N = Some (File data)
       /\ len data = N * 1048576)
  /\ (forall N, In N rest ->
        write_all done (<[output_dir := Dir]> m) !! dummy_name N
        = m !! dummy_name N).
Proof.
  intros Hsplit.
  pose proof sizes_all as H15. pose proof sizes_NoDup as Hnd.
  rewrite Hsplit in H15, Hnd.
  apply Forall_app in H15 as [Hdone Hrest].
  apply NoDup_app in Hnd as (_ & Hdisj & _).
  rewrite Forall_forall in Hdone, Hrest. split.
  - intros N HN. exists (spec_content N).
    split; [apply write_all_lookup; [apply Forall_forall|]; assumption|].
    apply len_spec_content.
    pose proof (Hdone N (proj2 (list_elem_of_In _ _) HN)). lia.
  - intros N HN.
    pose proof (Hrest N (proj2 (list_elem_of_In _ _) HN)) as HN15.
    destruct (name_facts N HN15) as (_ & Hne & _ & Hinj).
    rewrite write_all_other; [apply lookup_insert_ne, not_eq_sym, Hne|].
    intros s Hs E.
    pose proof (Hdone s (proj2 (list_elem_of_In _ _) Hs)) as Hs15.
    pose proof (Hinj s Hs15 (eq_sym E)) as <-.
    apply (Hdisj N); apply list_elem_of_In; assumption.
Qed.

(** In every outcome the lines printed are those of the files written: the
    sizes split into those done, whose files have their full size and whose
    lines are printed in order, and those left, whose paths are as before;
    [main] returns exactly when none is left. *)
Theorem main_prints_what_it_wrote w :
  exists done rest,
    py_range 1 16 = done ++ rest
    /\ stdout (main w).1 = stdout w ++ output_lines done
    /\ (forall N, In N done ->
          exists data,
            files (main w).1 !! dummy_name N = Some (File data)
            /\ len data = N * 1048576)
    /\ (forall N, In N rest ->
          files (main w).1 !! dummy_name N = files w !! dummy_name N)
    /\ ((main w).2 = Ok tt <-> rest = []).
Proof.
  rewrite main_steps.
  assert (Hloop :
    let out := for_each (py_range 1 16)
                 (fun size => create_dummy_file (dummy_name size) size)
                 (World (<[output_dir := Dir]> (files w)) (stdout w)) in
    exists done rest,
      py_range 1 16 = done ++ rest
      /\ stdout out.1 = stdout w ++ output_lines done
      /\ (forall N, In N done ->
            exists data,
              files out.1 !! dummy_name N = Some (File data)
              /\ len data = N * 1048576)
      /\ (forall N, In N rest ->
            files out.1 !! dummy_name N = files w !! dummy_name N)
      /\ (out.2 = Ok tt <-> rest = [])).
  { cbv zeta.
    destruct (loop_outcome _ sizes_all
                (World (<[output_dir := Dir]> (files w)) (stdout w))
                (is_dir_output_dir _ _))
      as (done & rest & r & Hsplit & -> & Hr).
    destruct (written_and_left (files w) done rest Hsplit) as [Hdone Hrest].
    exists done, rest. cbn [fst snd files stdout].
    split; [exact Hsplit|]. split; [reflexivity|].
    split; [exact Hdone|]. split; [exact Hrest|].
    destruct Hr as [[-> ->]|[-> (x & rest' & -> & _)]];
      split; intros; (reflexivity || discriminate). }
  destruct (files w !! output_dir) as [[|data]|] eqn:Hd;
    [exact Hloop| |exact Hloop].
  exists [], (py_range 1 16). cbn [fst snd app].
  split; [reflexivity|]. split; [symmetry; apply app_nil_r|].
  split; [intros N []|]. split; [reflexivity|].
  split; [discriminate|]. rewrite sizes_eq. discriminate.
Qed.

(** [main] touches no path but [dummy_files] and the fifteen files,
    whether it returns or raises. *)
Theorem main_touches_nothing_else p w :
  p <> str_lit "dummy_files" ->
  (forall N, 1 <= N <= 15 -> p <> dummy_name N) ->
  files (main w).1 !! p = files w !! p.
Proof.
  intros Hp Hn. change (str_lit "dummy_files") with output_dir in Hp.
  rewrite main_steps.
  destruct (files w !! output_dir) as [[|data]|] eqn:Hd; try reflexivity;
    (rewrite loop_frame;
     [cbn [files]; apply lookup_insert_ne; congruence
     |intros s Hs E; apply (Hn s); [apply in_sizes, Hs|congruence]]).
Qed.

Lemma main_touches_nothing_else_witness :
  str_lit "notes.txt" <> str_lit "dummy_files"
  /\ (forall N, 1 <= N <= 15 -> str_lit "notes.txt" <> dummy_name N)
  /\ files (main (World {[ str_lit "notes.txt" := File [104; 105] ]} [])).1
       !! str_lit "notes.txt"
     = files (World {[ str_lit "notes.txt" := File [104; 105] ]} [])
         !! str_lit "notes.txt".
Proof.
  assert (H : forall N, 1 <= N <= 15 -> str_lit "notes.txt" <> dummy_name N).
  { intros N HN E. apply (f_equal (fun l => l !! 0%nat)) in E.
    rewrite dummy_name_eq in E. discriminate. }
  split; [discriminate|]. split; [exact H|].
  apply (main_touches_nothing_else (str_lit "notes.txt")
           (World {[ str_lit "notes.txt" := File [104; 105] ]} []));
    [discriminate|exact H].
Defined.

(** ** Where the float quotient ends *)

Module FloatRange.
Import Float FloatFacts.






End FloatRange.



(** ** The files of [main] among themselves *)

Lemma spec_content_prefix N M :
  0 <= N <= M ->
  spec_content N = take (Z.to_nat (N * 1048576)) (spec_content M).
Proof.
  intros H.
  pose proof (FloatFacts.ceil_div_bounds (N * 1048576) 79 ltac:(lia)) as HcN.
  pose proof (FloatFacts.ceil_div_bounds (M * 1048576) 79 ltac:(lia)) as HcM.
  rewrite (spec_content_more N (ceil_div (M * 1048576) 79)) by lia.
  rewrite slice_to_nonneg by lia.
  unfold spec_content. rewrite len_message, take_take.
  f_equal. lia.
Qed.

(** The files nest: after [main], the file of a smaller size is the
    beginning of the file of every larger size. *)
Theorem smaller_file_is_prefix w :
  main_ready w = true ->
  forall N M, 1 <= N <= M -> M <= 15 ->
    exists small large,
      files (main w).1 !! dummy_name N = Some (File small)
      /\ files (main w).1 !! dummy_name M = Some (File large)
      /\ small = take (Z.to_nat (N * 1024 * 1024)) large.
Proof.
  intros Hw N M HN HM. rewrite (main_run w Hw). cbn [fst files].
  exists (spec_content N), (spec_content M).
  split; [apply main_file; lia|]. split; [apply main_file; lia|].
  replace (N * 1024 * 1024) with (N * 1048576) by lia.
  apply spec_content_prefix. lia.
Qed.

Lemma smaller_file_is_prefix_witness :
  main_ready empty_world = true
  /\ forall N M, 1 <= N <= M -> M <= 15 ->
       exists small large,
         files (main empty_world).1 !! dummy_name N = Some (File small)
         /\ files (main empty_world).1 !! dummy_name M = Some (File large)
         /\ small = take (Z.to_nat (N * 1024 * 1024)) large.
Proof.
  split; [vm_compute; reflexivity|].
  apply (smaller_file_is_prefix empty_world). vm_compute. reflexivity.
Defined.
